(** * Project environment variables: the reconciliation cycle

    A shallow embedding of [vercel/resource_project_environment_variables.go]:
    the plan-time drift check on write-only values
    ([suppressWriteOnlyEnvVarUpdates]), the three-way partition computed by
    [Update], the ordering of the remote calls, and the [Create] and [Delete]
    paths, followed by the properties of the specification checked on them. *)

From Stdlib Require Import ZArith Ascii String List Lia.
From stdpp Require Import base option list gmap strings fin_maps.

Local Open Scope string_scope.
Local Open Scope list_scope.

(** ** Values of the plugin framework *)

(** A [types.String]: null, unknown or a known string.  The zero value of the
    Go type is the null string. *)
Inductive tfString : Type :=
| StringNull
| StringUnknown
| StringValue (s : string).

(** A [types.Bool]. *)
Inductive tfBool : Type :=
| BoolNull
| BoolUnknown
| BoolValue (b : bool).

(** A [types.Set] of strings; the elements are kept in the order the
    framework hands them out. *)
Inductive tfSet : Type :=
| SetNull
| SetUnknown
| SetValue (elems : list string).

Definition ValueString (v : tfString) : string :=
  match v with StringValue s => s | _ => "" end.

Definition ValueStringPointer (v : tfString) : option string :=
  match v with StringNull => None | StringUnknown => Some "" | StringValue s => Some s end.

Definition StringPointerValue (p : option string) : tfString :=
  match p with None => StringNull | Some s => StringValue s end.

Definition ValueBool (v : tfBool) : bool :=
  match v with BoolValue b => b | _ => false end.

(** [v.ElementsAs(ctx, &target, true)]: with [allowUnhandled] set, a null or
    unknown set decodes to the empty slice, and decoding a set of strings into
    a [[]string] raises no diagnostic, so the error branches that follow each
    call in the source are never taken. *)
Definition ElementsAs (v : tfSet) : list string :=
  match v with SetValue l => l | _ => [] end.

(** ** Formatting and trimming *)

Definition quote : ascii := "034"%char.

Definition hexDigit (n : N) : ascii :=
  match n with
  | 0 => "0" | 1 => "1" | 2 => "2" | 3 => "3" | 4 => "4" | 5 => "5"
  | 6 => "6" | 7 => "7" | 8 => "8" | 9 => "9" | 10 => "a" | 11 => "b"
  | 12 => "c" | 13 => "d" | 14 => "e" | _ => "f"
  end%N%char.

(** The [%x] verb of [fmt.Sprintf] on a byte array: two lower-case hexadecimal
    digits per byte, most significant first. *)
Fixpoint sprintf_x (bs : list Byte.byte) : string :=
  match bs with
  | [] => ""
  | b :: bs' =>
      let n := Byte.to_N b in
      String (hexDigit (n / 16)) (String (hexDigit (n mod 16)) (sprintf_x bs'))
  end.

Fixpoint TrimLeft (c : ascii) (s : string) : string :=
  match s with
  | EmptyString => EmptyString
  | String a s' => if Ascii.eqb a c then TrimLeft c s' else s
  end.

Fixpoint TrimRight (c : ascii) (s : string) : string :=
  match s with
  | EmptyString => EmptyString
  | String a s' =>
      match TrimRight c s' with
      | EmptyString => if Ascii.eqb a c then EmptyString else String a EmptyString
      | r => String a r
      end
  end.

(** [strings.Trim(s, cutset)] for a one-character cutset: every leading and
    every trailing occurrence of the character is dropped. *)
Definition Trim (s : string) (c : ascii) : string := TrimRight c (TrimLeft c s).

(** The value of a hexadecimal digit, the inverse of [hexDigit]. *)
Definition unhexDigit (a : ascii) : N :=
  let n := N_of_ascii a in
  if (n <? 58)%N then (n - 48)%N else (n - 87)%N.

(** A string without any double-quote character. *)
Fixpoint quoteFree (s : string) : Prop :=
  match s with
  | EmptyString => True
  | String a s' => a <> quote /\ quoteFree s'
  end.

(** ** The private state of a resource

    [resp.Private] and [req.Private]: an opaque map from keys to byte strings
    kept by the framework next to the recorded state.  [GetKey] of an absent
    key yields [nil]; [SetKey] with a [nil] or empty value removes the key. *)
Definition PrivateState : Type := gmap string string.

Definition GetKey (p : gmap string string) (key : string) : string :=
  default "" (p !! key).

Definition SetKey (p : gmap string string) (key : string) (value : string)
  : gmap string string :=
  if String.eqb value "" then delete key p else <[key := value]> p.

(** ** Data model *)

(** One element of the [variables] map attribute. *)
Record EnvironmentItem : Type := {
  Target : tfSet;
  CustomEnvironmentIDs : tfSet;
  GitBranch : tfString;
  Value : tfString;
  ID : tfString;
  Sensitive : tfBool;
  Comment : tfString;
}.

(** The zero value of the struct, which is what a Go map yields for a key it
    does not hold. *)
Definition zeroEnvironmentItem : EnvironmentItem :=
  {| Target := SetNull; CustomEnvironmentIDs := SetNull; GitBranch := StringNull;
     Value := StringNull; ID := StringNull; Sensitive := BoolNull;
     Comment := StringNull |}.

(** [ProjectEnvironmentVariables]: what the framework stores for the resource.
    A null [variables] map is [None]. *)
Record ProjectEnvironmentVariables : Type := {
  TeamID : tfString;
  ProjectID : tfString;
  Variables : option (gmap string EnvironmentItem);
}.

(** [p.environment(ctx)]: a null map decodes to Go's [nil] map, which reads
    as the empty map. *)
Definition environment (p : ProjectEnvironmentVariables) : gmap string EnvironmentItem :=
  default ∅ (Variables p).

(** Reading a Go map at a key: the zero value when the key is absent. *)
Definition index (m : gmap string EnvironmentItem) (key : string) : EnvironmentItem :=
  default zeroEnvironmentItem (m !! key).

(** ** The API client

    The types of package [client] that the resource uses, with the fields it
    reads, and the four calls it makes.  The remote system is a state of an
    arbitrary type [World] threaded through the calls. *)
Module client.

Record EnvironmentVariable : Type := {
  Key : string;
  Value : string;
  Target : list string;
  CustomEnvironmentIDs : list string;
  Type_ : string;
  ID : string;
  GitBranch : option string;
  Comment : string;
  Decrypted : option bool;
}.

Record EnvironmentVariableRequest : Type := {
  reqKey : string;
  reqValue : string;
  reqTarget : list string;
  reqCustomEnvironmentIDs : list string;
  reqType : string;
  reqGitBranch : option string;
  reqComment : string;
}.

Record CreateEnvironmentVariablesRequest : Type := {
  reqProjectID : string;
  reqTeamID : string;
  EnvironmentVariables : list EnvironmentVariableRequest;
}.

(** Modelled from the spec: the error values of package [client] are not
    part of this file; a failure either is the remote system's "not found"
    or is any other failure, and both carry a message. *)
Inductive error : Type :=
| ErrNotFound (msg : string)
| ErrOther (msg : string).

Definition Error (e : error) : string :=
  match e with ErrNotFound msg => msg | ErrOther msg => msg end.

(** [client.NotFound(err)]; a [nil] error is not a "not found". *)
Definition NotFound (err : option error) : bool :=
  match err with Some (ErrNotFound _) => true | _ => false end.

Class Client (World : Type) : Type := {
  GetProject : World -> string -> string -> World * option error;
  GetEnvironmentVariables :
    World -> string -> string -> World * (list EnvironmentVariable * option error);
  CreateEnvironmentVariables :
    World -> CreateEnvironmentVariablesRequest ->
    World * (list EnvironmentVariable * option error);
  DeleteEnvironmentVariable :
    World -> string -> string -> string -> World * option error;
}.

End client.

(** ** What the file takes from its surroundings

    [Sum256] is [crypto/sha256]; [isSameStringSet] and [toTeamID] are helpers
    of the package defined in sibling files; [range] is the order in which a
    Go [for ... range] statement visits a map, which the language leaves
    open: any enumeration of the map's entries. *)
Class Platform : Type := {
  Sum256 : string -> list Byte.byte;
  isSameStringSet : list string -> list string -> bool;
  toTeamID : string -> tfString;
  range : forall {A : Type}, gmap string A -> list (string * A);
  range_perm : forall (A : Type) (m : gmap string A), range m ≡ₚ map_to_list m;
}.

(** ** Observable steps of a call, and its response *)

Inductive Event : Type :=
| EvSetKey (key value : string)
| EvGetProject (projectID teamID : string)
| EvGetEnvironmentVariables (projectID teamID : string)
| EvDeleteEnvironmentVariable (projectID teamID id : string)
| EvSleep (nanoseconds : Z)
| EvCreateEnvironmentVariables (request : client.CreateEnvironmentVariablesRequest).

Definition Second : Z := 1000000000.

Record Diagnostic : Type := { Summary : string; Detail : string }.

(** What a call did to [resp.State]: left it as the framework prepared it
    (the prior state for [Update], no state for [Create]), removed the
    resource, or set a new recorded state. *)
Inductive StateOutcome : Type :=
| StateUntouched
| StateRemoved
| StateSet (s : ProjectEnvironmentVariables).

Record Response (World : Type) : Type := {
  world : World;
  Private : gmap string string;
  Diagnostics : list Diagnostic;
  State : StateOutcome;
  trace : list Event;
}.
Arguments world {World} _.
Arguments Private {World} _.
Arguments Diagnostics {World} _.
Arguments State {World} _.
Arguments trace {World} _.

(** [OperationPlan]: the three maps [Update] builds before it calls out. *)
Record OperationPlan : Type := {
  toAdd : gmap string EnvironmentItem;
  toRemove : gmap string EnvironmentItem;
  unchanged : gmap string EnvironmentItem;
}.

(** The plan together with the private state and the private-state writes
    made while it was computed. *)
Record Planned : Type := {
  operations : OperationPlan;
  planPrivate : gmap string string;
  planTrace : list Event;
}.

(** ** The resource *)

Section Resource.
Context {World : Type} `{!client.Client World} `{!Platform}.

(** The prefix of the private-state keys: [vercel_env_], the project ID,
    an underscore, the team ID, an underscore. *)
Definition privatePrefix (p : ProjectEnvironmentVariables) : string :=
  "vercel_env_" +:+ ValueString (ProjectID p) +:+ "_"
    +:+ ValueString (TeamID p) +:+ "_".

(** The digest as [Create] and [Update] write it to the private state: its
    [%x] form between two double-quote characters, a JSON string. *)
Definition storedForm (hash : list Byte.byte) : string :=
  String quote (sprintf_x hash +:+ String quote "").

(** The test of [suppressWriteOnlyEnvVarUpdates] on one variable: the
    stored bytes are not empty and, with the double-quote characters
    trimmed from both ends, equal the [%x] form of the hash. *)
Definition storedHashMatches (private : gmap string string)
    (privateKey : string) (hash : list Byte.byte) : bool :=
  let storedHash := GetKey private privateKey in
  (0 <? String.length storedHash)%nat
    && String.eqb (Trim storedHash quote) (sprintf_x hash).

(** The attribute path of the [value] of the variable stored under [key]. *)
Definition valuePath (key : string) : list string := ["variables"; key; "value"].

(** [suppressWriteOnlyEnvVarUpdates]: the paths appended to
    [resp.RequiresReplace], given the configuration and [req.Private]. *)
Definition suppressWriteOnlyEnvVarUpdates (config : ProjectEnvironmentVariables)
    (private : gmap string string) : list (list string) :=
  let prefix := privatePrefix config in
  foldl (fun requiresReplace kv =>
           let hash := Sum256 (ValueString (Value kv.2)) in
           let privateKey := prefix +:+ kv.1 in
           if storedHashMatches private privateKey hash
           then requiresReplace
           else requiresReplace ++ [valuePath kv.1])
        [] (range (environment config)).

(** [envVarMatches] *)
Definition envVarMatches (key : string) (ee : EnvironmentItem)
    (e : client.EnvironmentVariable) : bool :=
  let target := ElementsAs (Target ee) in
  let customEnvironmentIDs := ElementsAs (CustomEnvironmentIDs ee) in
  if String.eqb key (client.Key e)
     && isSameStringSet target (client.Target e)
     && isSameStringSet customEnvironmentIDs (client.CustomEnvironmentIDs e)
  then
    match client.Decrypted e with
    | Some false => false
    | _ =>
        if String.eqb (client.Type_ e) "sensitive" then false
        else if negb (String.eqb (client.Value e) (ValueString (Value ee))) then false
        else true
    end
  else false.

(** [toCreateEnvironmentVariablesRequest] *)
Definition toCreateEnvironmentVariablesRequest (e : gmap string EnvironmentItem)
    (projectID teamID : tfString) : client.CreateEnvironmentVariablesRequest :=
  let variables :=
    foldl (fun variables kv =>
             let env := kv.2 in
             let envVariableType :=
               if ValueBool (Sensitive env) then "sensitive" else "encrypted" in
             variables ++
               [{| client.reqKey := kv.1;
                   client.reqValue := ValueString (Value env);
                   client.reqTarget := ElementsAs (Target env);
                   client.reqCustomEnvironmentIDs := ElementsAs (CustomEnvironmentIDs env);
                   client.reqType := envVariableType;
                   client.reqGitBranch := ValueStringPointer (GitBranch env);
                   client.reqComment := ValueString (Comment env) |}])
          [] (range e) in
  {| client.reqProjectID := ValueString projectID;
     client.reqTeamID := ValueString teamID;
     client.EnvironmentVariables := variables |}.

(** The value [convertResponseToProjectEnvironmentVariables] records for a
    response entry: the response's own value, unless the entry is not
    readable, in which case the value of the planned variable with the same
    key and environments is used when there is one. *)
Definition recordedValue (environment : gmap string EnvironmentItem)
    (e : client.EnvironmentVariable) : tfString :=
  let value :=
    if String.eqb (client.Type_ e) "sensitive" then StringNull
    else StringValue (client.Value e) in
  if match client.Decrypted e with Some false => true | _ => false end
     || String.eqb (client.Type_ e) "sensitive"
  then
    match
      List.find (fun kv =>
              String.eqb kv.1 (client.Key e)
              && isSameStringSet (ElementsAs (Target kv.2)) (client.Target e)
              && isSameStringSet (ElementsAs (CustomEnvironmentIDs kv.2))
                   (client.CustomEnvironmentIDs e))
           (range environment)
    with
    | Some kv => Value kv.2
    | None => value
    end
  else value.

Definition responseItem (environment : gmap string EnvironmentItem)
    (e : client.EnvironmentVariable) : EnvironmentItem :=
  {| Value := recordedValue environment e;
     Target := match client.Target e with [] => SetNull | l => SetValue l end;
     CustomEnvironmentIDs :=
       match client.CustomEnvironmentIDs e with [] => SetNull | l => SetValue l end;
     GitBranch := StringPointerValue (client.GitBranch e);
     ID := StringValue (client.ID e);
     Sensitive := BoolValue (String.eqb (client.Type_ e) "sensitive");
     Comment := StringValue (client.Comment e) |}.

(** [convertResponseToProjectEnvironmentVariables]; an element of the
    [variables] map and its [toAttrValue()] are the same record here. *)
Definition convertResponseToProjectEnvironmentVariables
    (response : list client.EnvironmentVariable)
    (plan : ProjectEnvironmentVariables)
    (unchanged : gmap string EnvironmentItem) : ProjectEnvironmentVariables :=
  let environment := environment plan in
  let acc :=
    foldl (fun (acc : gmap string EnvironmentItem * gset string) e =>
             if bool_decide (client.ID e ∈ acc.2) then acc
             else (<[client.Key e := responseItem environment e]> acc.1,
                   {[client.ID e]} ∪ acc.2))
          (∅, ∅) response in
  let env :=
    foldl (fun (env : gmap string EnvironmentItem) kv =>
             match env !! kv.1 with
             | Some _ => env
             | None => <[kv.1 := kv.2]> env
             end)
          acc.1 (range unchanged) in
  {| TeamID := toTeamID (ValueString (TeamID plan));
     ProjectID := ProjectID plan;
     Variables := Some env |}.

(** The loop that [Create] and [Update] run over the configured variables:
    the digest of every value is written to the private state. *)
Definition setHashes (prefix : string) (envs : gmap string EnvironmentItem)
    (private : gmap string string) : gmap string string * list Event :=
  foldl (fun (st : gmap string string * list Event) kv =>
           let hash := Sum256 (ValueString (Value kv.2)) in
           let privateKey := prefix +:+ kv.1 in
           (SetKey st.1 privateKey (storedForm hash),
            st.2 ++ [EvSetKey privateKey (storedForm hash)]))
        (private, []) (range envs).

(** [envsFromAPIMap]: the entries read from the API keyed by variable name;
    of two entries with one name the later replaces the earlier. *)
Definition envsFromAPIMapOf (envsFromAPI : list client.EnvironmentVariable)
  : gmap string client.EnvironmentVariable :=
  foldl (fun m e => <[client.Key e := e]> m) ∅ envsFromAPI.

(** First loop of [Update]: planned names the API does not hold. *)
Definition planAdditions (planEnvs configEnvs : gmap string EnvironmentItem)
    (envsFromAPIMap : gmap string client.EnvironmentVariable)
  : gmap string EnvironmentItem :=
  foldl (fun (toAdd : gmap string EnvironmentItem) (kv : string * EnvironmentItem) =>
           match envsFromAPIMap !! kv.1 with
           | Some _ => toAdd
           | None => <[kv.1 := index configEnvs kv.1]> toAdd
           end)
        ∅ (range planEnvs).

(** Body of the second loop of [Update], on one recorded variable. *)
Definition classify (prefix : string)
    (planEnvs configEnvs : gmap string EnvironmentItem)
    (envsFromAPIMap : gmap string client.EnvironmentVariable)
    (st : Planned) (kv : string * EnvironmentItem) : Planned :=
  let key := kv.1 in
  let e := kv.2 in
  let p := operations st in
  match planEnvs !! key with
  | None =>
      let privateKey := prefix +:+ key in
      {| operations := {| toAdd := toAdd p;
                    toRemove := <[key := e]> (toRemove p);
                    unchanged := unchanged p |};
         planPrivate := SetKey (planPrivate st) privateKey "";
         planTrace := planTrace st ++ [EvSetKey privateKey ""] |}
  | Some _ =>
      match envsFromAPIMap !! key with
      | Some apiEnv =>
          if negb (String.eqb (ValueString (ID e)) (client.ID apiEnv))
             || negb (envVarMatches key (index configEnvs key) apiEnv)
          then
            {| operations := {| toAdd := <[key := index configEnvs key]> (toAdd p);
                          toRemove := <[key := e]> (toRemove p);
                          unchanged := unchanged p |};
               planPrivate := planPrivate st;
               planTrace := planTrace st |}
          else
            {| operations := {| toAdd := toAdd p;
                          toRemove := toRemove p;
                          unchanged := <[key := e]> (unchanged p) |};
               planPrivate := planPrivate st;
               planTrace := planTrace st |}
      | None =>
          {| operations := {| toAdd := toAdd p;
                        toRemove := toRemove p;
                        unchanged := <[key := e]> (unchanged p) |};
             planPrivate := planPrivate st;
             planTrace := planTrace st |}
      end
  end.

(** The part of [Update] between the read of the API and the first remote
    mutation: [envsFromAPIMap], [toAdd], [toRemove] and [unchanged]. *)
Definition reconcile (prefix : string)
    (planEnvs configEnvs stateEnvs : gmap string EnvironmentItem)
    (envsFromAPI : list client.EnvironmentVariable)
    (private : gmap string string) : Planned :=
  let envsFromAPIMap := envsFromAPIMapOf envsFromAPI in
  let toAdd := planAdditions planEnvs configEnvs envsFromAPIMap in
  foldl (classify prefix planEnvs configEnvs envsFromAPIMap)
        {| operations := {| toAdd := toAdd; toRemove := ∅; unchanged := ∅ |};
           planPrivate := private;
           planTrace := [] |}
        (range stateEnvs).

Definition removalFailed (key : string) (v : EnvironmentItem) (err : client.error)
  : Diagnostic :=
  {| Summary := "Error updating Project Environment Variables";
     Detail := "Could not remove environment variable " +:+ key +:+ " ("
               +:+ ValueString (ID v) +:+ "), unexpected error: "
               +:+ client.Error err |}.

(** The loop of [Update] over [toRemove]: a "not found" answer is skipped,
    any other error stops the loop. *)
Fixpoint removeAll (w : World) (projectID teamID : string)
    (l : list (string * EnvironmentItem))
  : World * list Event * option Diagnostic :=
  match l with
  | [] => (w, [], None)
  | kv :: l' =>
      let id := ValueString (ID kv.2) in
      let r := client.DeleteEnvironmentVariable w projectID teamID id in
      let ev := EvDeleteEnvironmentVariable projectID teamID id in
      if client.NotFound r.2 then
        let rest := removeAll r.1 projectID teamID l' in
        (rest.1.1, ev :: rest.1.2, rest.2)
      else
        match r.2 with
        | Some err => (r.1, [ev], Some (removalFailed kv.1 kv.2 err))
        | None =>
            let rest := removeAll r.1 projectID teamID l' in
            (rest.1.1, ev :: rest.1.2, rest.2)
        end
  end.

(** The loop of [Delete] over the recorded variables: every error stops
    the loop. *)
Fixpoint deleteAll (w : World) (projectID teamID : string)
    (l : list (string * EnvironmentItem))
  : World * list Event * option Diagnostic :=
  match l with
  | [] => (w, [], None)
  | kv :: l' =>
      let id := ValueString (ID kv.2) in
      let r := client.DeleteEnvironmentVariable w projectID teamID id in
      let ev := EvDeleteEnvironmentVariable projectID teamID id in
      match r.2 with
      | Some err => (r.1, [ev], Some (removalFailed kv.1 kv.2 err))
      | None =>
          let rest := deleteAll r.1 projectID teamID l' in
          (rest.1.1, ev :: rest.1.2, rest.2)
      end
  end.

(** What the application of a plan ends with: the entries the batched
    create returned (none when nothing was to add), or the diagnostic of
    the call that failed. *)
Record Applied : Type := {
  appliedWorld : World;
  appliedTrace : list Event;
  appliedResult : Diagnostic + list client.EnvironmentVariable;
}.

(** The part of [Update] that calls out: the removals, the pause, the
    batched create. *)
Definition applyPlan (w : World) (planned state : ProjectEnvironmentVariables)
    (p : OperationPlan) : Applied :=
  let removed :=
    removeAll w (ValueString (ProjectID state)) (ValueString (TeamID state))
              (range (toRemove p)) in
  match removed.2 with
  | Some d =>
      {| appliedWorld := removed.1.1; appliedTrace := removed.1.2;
         appliedResult := inl d |}
  | None =>
      if (0 <? size (toAdd p))%nat then
        let pause :=
          if (0 <? size (toRemove p))%nat then [EvSleep (Second * 5)] else [] in
        let request :=
          toCreateEnvironmentVariablesRequest (toAdd p)
            (ProjectID planned) (TeamID planned) in
        let r := client.CreateEnvironmentVariables removed.1.1 request in
        let tr := removed.1.2 ++ pause ++ [EvCreateEnvironmentVariables request] in
        match r.2.2 with
        | Some err =>
            {| appliedWorld := r.1; appliedTrace := tr;
               appliedResult :=
                 inl {| Summary := "Error updating project environment variables";
                        Detail := "Could not update project environment variable, unexpected error: "
                                  +:+ client.Error err |} |}
        | None =>
            {| appliedWorld := r.1; appliedTrace := tr; appliedResult := inr r.2.1 |}
        end
      else
        {| appliedWorld := removed.1.1; appliedTrace := removed.1.2;
           appliedResult := inr [] |}
  end.

(** [Update], from the plan, the prior state, the configuration and the
    private state the response starts with. *)
Definition Update (w : World) (plan state config : ProjectEnvironmentVariables)
    (private : gmap string string) : Response World :=
  let stateEnvs := environment state in
  let configEnvs := environment config in
  let prefix := privatePrefix plan in
  let hashed := setHashes prefix configEnvs private in
  let planEnvs := environment plan in
  let got :=
    client.GetEnvironmentVariables w (ValueString (ProjectID state))
      (ValueString (TeamID state)) in
  let tr :=
    hashed.2 ++ [EvGetEnvironmentVariables (ValueString (ProjectID state))
                   (ValueString (TeamID state))] in
  if client.NotFound got.2.2 then
    {| world := got.1; Private := hashed.1; Diagnostics := [];
       State := StateRemoved; trace := tr |}
  else
    match got.2.2 with
    | Some err =>
        {| world := got.1; Private := hashed.1;
           Diagnostics :=
             [{| Summary := "Error reading project environment variables as part of environment variable update";
                 Detail := "Could not read environment variables as part of updating, unexpected error: "
                           +:+ client.Error err |}];
           State := StateUntouched; trace := tr |}
    | None =>
        let planned :=
          reconcile prefix planEnvs configEnvs stateEnvs got.2.1 hashed.1 in
        let applied := applyPlan got.1 plan state (operations planned) in
        let tr' := tr ++ planTrace planned ++ appliedTrace applied in
        match appliedResult applied with
        | inl d =>
            {| world := appliedWorld applied; Private := planPrivate planned;
               Diagnostics := [d]; State := StateUntouched; trace := tr' |}
        | inr response =>
            {| world := appliedWorld applied; Private := planPrivate planned;
               Diagnostics := [];
               State :=
                 StateSet (convertResponseToProjectEnvironmentVariables response plan
                             (unchanged (operations planned)));
               trace := tr' |}
        end
    end.

(** [Create], from the configuration and the private state the response
    starts with.  A failure of [GetProject] other than "not found" is not
    looked at; after a failed batched create the function goes on. *)
Definition Create (w : World) (plan : ProjectEnvironmentVariables)
    (private : gmap string string) : Response World :=
  let found :=
    client.GetProject w (ValueString (ProjectID plan)) (ValueString (TeamID plan)) in
  let tr :=
    [EvGetProject (ValueString (ProjectID plan)) (ValueString (TeamID plan))] in
  if client.NotFound found.2 then
    {| world := found.1; Private := private;
       Diagnostics :=
         [{| Summary := "Error creating project environment variables";
             Detail := "Could not find project, please make sure both the project_id and team_id match the project and team you wish to deploy to." |}];
       State := StateUntouched; trace := tr |}
  else
    let envs := environment plan in
    let request :=
      toCreateEnvironmentVariablesRequest envs (ProjectID plan) (TeamID plan) in
    let r := client.CreateEnvironmentVariables found.1 request in
    let diags :=
      match r.2.2 with
      | Some err =>
          [{| Summary := "Error creating project environment variables";
              Detail := "Could not create project environment variables, unexpected error: "
                        +:+ client.Error err |}]
      | None => []
      end in
    let result := convertResponseToProjectEnvironmentVariables r.2.1 plan ∅ in
    let hashed := setHashes (privatePrefix plan) envs private in
    {| world := r.1; Private := hashed.1; Diagnostics := diags;
       State := StateSet result;
       trace := tr ++ [EvCreateEnvironmentVariables request] ++ hashed.2 |}.

(** [Delete]; on success the framework drops the recorded state itself. *)
Definition Delete (w : World) (state : ProjectEnvironmentVariables)
    (private : gmap string string) : Response World :=
  let envs := environment state in
  let removed :=
    deleteAll w (ValueString (ProjectID state)) (ValueString (TeamID state))
              (range envs) in
  {| world := removed.1.1; Private := private;
     Diagnostics := match removed.2 with Some d => [d] | None => [] end;
     State := StateUntouched; trace := removed.1.2 |}.

(** The two tests of [classify], as functions of the recorded variable: it
    was dropped from the plan; it is planned and the API holds an entry of
    its name with another ID or one that [envVarMatches] rejects. *)
Definition dropped (planEnvs : gmap string EnvironmentItem) (key : string) : bool :=
  match planEnvs !! key with None => true | Some _ => false end.

Definition replaced (planEnvs configEnvs : gmap string EnvironmentItem)
    (envsFromAPIMap : gmap string client.EnvironmentVariable)
    (key : string) (e : EnvironmentItem) : bool :=
  match planEnvs !! key, envsFromAPIMap !! key with
  | Some _, Some apiEnv =>
      negb (String.eqb (ValueString (ID e)) (client.ID apiEnv))
      || negb (envVarMatches key (index configEnvs key) apiEnv)
  | _, _ => false
  end.

Definition deleteEvent (state : ProjectEnvironmentVariables)
    (kv : string * EnvironmentItem) : Event :=
  EvDeleteEnvironmentVariable (ValueString (ProjectID state))
    (ValueString (TeamID state)) (ValueString (ID kv.2)).

Definition isRemoteCall (ev : Event) : bool :=
  match ev with
  | EvSetKey _ _ | EvSleep _ => false
  | _ => true
  end.

End Resource.

(** ** Reading the resource back, and checking a plan *)

(** The part of a team that [ModifyPlan] looks at, and the call that
    fetches it. *)
Record TeamPolicy : Type := {
  SensitiveEnvironmentVariablePolicy : option string;
}.

Class TeamClient (World : Type) : Type := {
  Team : World -> string -> World * (TeamPolicy * option client.error);
}.

(** What [ModifyPlan] leaves in its response: the paths that force a
    replacement, the diagnostics with the attribute path they are attached
    to (none for a plain error), and the team IDs it asked the API for. *)
Record PlanResponse (World : Type) : Type := {
  planWorld : World;
  RequiresReplace : list (list string);
  PlanDiagnostics : list (option (list string) * Diagnostic);
  teamCalls : list string;
}.
Arguments planWorld {World} _.
Arguments RequiresReplace {World} _.
Arguments PlanDiagnostics {World} _.
Arguments teamCalls {World} _.

(** The request entry [toCreateEnvironmentVariablesRequest] builds for one
    variable of the map. *)
Definition requestOf (kv : string * EnvironmentItem) : client.EnvironmentVariableRequest :=
  {| client.reqKey := kv.1;
     client.reqValue := ValueString (Value kv.2);
     client.reqTarget := ElementsAs (Target kv.2);
     client.reqCustomEnvironmentIDs := ElementsAs (CustomEnvironmentIDs kv.2);
     client.reqType := if ValueBool (Sensitive kv.2) then "sensitive" else "encrypted";
     client.reqGitBranch := ValueStringPointer (GitBranch kv.2);
     client.reqComment := ValueString (Comment kv.2) |}.

Section Reading.
Context {World : Type} `{!client.Client World} `{!TeamClient World} `{!Platform}.

(** The test [Read] and [convertResponseToProjectEnvironmentVariables] use to
    correlate a variable of the state with an entry of the API: same name,
    same targets, same custom environments. *)
Definition sameVariable (kv : string * EnvironmentItem)
    (e : client.EnvironmentVariable) : bool :=
  String.eqb kv.1 (client.Key e)
  && isSameStringSet (ElementsAs (Target kv.2)) (client.Target e)
  && isSameStringSet (ElementsAs (CustomEnvironmentIDs kv.2))
       (client.CustomEnvironmentIDs e).

(** [existingIDs] of [Read]: the non-empty IDs of the recorded variables. *)
Definition existingIDsOf (existing : gmap string EnvironmentItem) : gset string :=
  foldl (fun (ids : gset string) (kv : string * EnvironmentItem) =>
           if negb (String.eqb (ValueString (ID kv.2)) "")
           then {[ValueString (ID kv.2)]} ∪ ids else ids)
        ∅ (range existing).

(** An entry of the API is the same variable as the recorded variable of its
    name. *)
Definition correlates (existing : gmap string EnvironmentItem)
    (e : client.EnvironmentVariable) : bool :=
  match existing !! client.Key e with
  | Some p => sameVariable (client.Key e, p) e
  | None => false
  end.

(** [toUse] of [Read]: first the entries of the API whose ID is recorded,
    then, for every entry whose ID is not recorded, one copy for each
    recorded variable it is the same variable as. *)
Definition toUseOf (existing : gmap string EnvironmentItem)
    (envs : list client.EnvironmentVariable) : list client.EnvironmentVariable :=
  let existingIDs := existingIDsOf existing in
  let byID :=
    foldl (fun toUse e =>
             if bool_decide (client.ID e ∈ existingIDs) then toUse ++ [e] else toUse)
          [] envs in
  foldl (fun toUse e =>
           if bool_decide (client.ID e ∈ existingIDs) then toUse
           else foldl (fun toUse kv =>
                         if sameVariable kv e then toUse ++ [e] else toUse)
                      toUse (range existing))
        byID envs.

(** [Read], from the prior state and the private state the response starts
    with. *)
Definition Read (w : World) (state : ProjectEnvironmentVariables)
    (private : gmap string string) : Response World :=
  let existing := environment state in
  let existingIDs := existingIDsOf existing in
  if (size existingIDs =? 0)%nat then
    {| world := w; Private := private; Diagnostics := [];
       State := StateUntouched; trace := [] |}
  else
    let got :=
      client.GetEnvironmentVariables w (ValueString (ProjectID state))
        (ValueString (TeamID state)) in
    let tr :=
      [EvGetEnvironmentVariables (ValueString (ProjectID state))
         (ValueString (TeamID state))] in
    if client.NotFound got.2.2 then
      {| world := got.1; Private := private; Diagnostics := [];
         State := StateRemoved; trace := tr |}
    else
      match got.2.2 with
      | Some err =>
          {| world := got.1; Private := private;
             Diagnostics :=
               [{| Summary := "Error reading project environment variables";
                   Detail := "Could not read environment variables, unexpected error: "
                             +:+ client.Error err |}];
             State := StateUntouched; trace := tr |}
      | None =>
          let toUse := toUseOf existing got.2.1 in
          {| world := got.1; Private := private; Diagnostics := [];
             State :=
               StateSet (convertResponseToProjectEnvironmentVariables toUse state ∅);
             trace := tr |}
      end.

(** The attribute path of the [sensitive] flag of the variable stored under
    [key]. *)
Definition sensitivePath (key : string) : list string := ["variables"; key; "sensitive"].

(** [nonSensitiveEnvVars] of [ModifyPlan]: the variables without ID whose
    [sensitive] flag is known and false. *)
Definition nonSensitiveEnvVarsOf (environment : gmap string EnvironmentItem)
  : list (list string) :=
  foldl (fun (paths : list (list string)) (kv : string * EnvironmentItem) =>
           if negb (String.eqb (ValueString (ID kv.2)) "") then paths
           else match Sensitive kv.2 with
                | BoolValue false => paths ++ [sensitivePath kv.1]
                | _ => paths
                end)
        [] (range environment).

Definition policyViolation : Diagnostic :=
  {| Summary := "Project Environment Variables Invalid";
     Detail := "This team has a policy that forces all environment variables to be sensitive. Please remove the `sensitive` field for your environment variables or set the `sensitive` field to `true` in your configuration." |}.

(** [ModifyPlan], from whether the plan is null (the resource is being
    destroyed), the configuration and [req.Private]. *)
Definition ModifyPlan (w : World) (planIsNull : bool)
    (config : ProjectEnvironmentVariables) (private : gmap string string)
  : PlanResponse World :=
  let nothing :=
    {| planWorld := w; RequiresReplace := []; PlanDiagnostics := [];
       teamCalls := [] |} in
  if planIsNull then nothing
  else
    let environment := environment config in
    if (size environment =? 0)%nat then nothing
    else
      let requiresReplace := suppressWriteOnlyEnvVarUpdates config private in
      let nonSensitiveEnvVars := nonSensitiveEnvVarsOf environment in
      match nonSensitiveEnvVars with
      | [] =>
          {| planWorld := w; RequiresReplace := requiresReplace;
             PlanDiagnostics := []; teamCalls := [] |}
      | _ =>
          let r := Team w (ValueString (TeamID config)) in
          let calls := [ValueString (TeamID config)] in
          match r.2.2 with
          | Some err =>
              {| planWorld := r.1; RequiresReplace := requiresReplace;
                 PlanDiagnostics :=
                   [(None,
                     {| Summary := "Error validating project environment variables";
                        Detail := "Could not validate project environment variable, unexpected error: "
                                  +:+ client.Error err |})];
                 teamCalls := calls |}
          | None =>
              let enforced :=
                match SensitiveEnvironmentVariablePolicy r.2.1 with
                | Some policy => String.eqb policy "on"
                | None => false
                end in
              {| planWorld := r.1; RequiresReplace := requiresReplace;
                 PlanDiagnostics :=
                   if enforced
                   then (fun p => (Some p, policyViolation)) <$> nonSensitiveEnvVars
                   else [];
                 teamCalls := calls |}
          end
      end.

End Reading.

(** ** A concrete platform and a remote system to run the resource on *)

(** SHA-256 (FIPS 180-4) on byte strings, for [Sum256]. *)
Module sha256.
Local Open Scope Z_scope.

Definition wrap (x : Z) : Z := x mod 2 ^ 32.
Definition add (x y : Z) : Z := wrap (x + y).
Definition rotr (n x : Z) : Z := Z.lor (Z.shiftr x n) (wrap (Z.shiftl x (32 - n))).
Definition not32 (x : Z) : Z := Z.lxor x 4294967295.

(** The first sixty-four primes, by trial division. *)
Definition isPrime (n : Z) : bool :=
  forallb (fun d => (n <? d * d) || negb (n mod d =? 0))
          (map Z.of_nat (seq 2 16)).

Definition primes : list Z := List.filter isPrime (map Z.of_nat (seq 2 310)).

(** The integer cube root of a number below [2 ^ 105], bit by bit. *)
Definition cubeRoot (n : Z) : Z :=
  List.fold_left (fun r b => let c := r + 2 ^ Z.of_nat b in
                             if c * c * c <=? n then c else r)
                 (rev (seq 0 35)) 0.

(** The round constants: the first thirty-two bits of the fractional parts
    of the cube roots of the primes. *)
Definition K : list Z := map (fun p => wrap (cubeRoot (p * 2 ^ 96))) primes.

(** The initial hash value: the same of the square roots of the first
    eight primes. *)
Definition init : list Z := map (fun p => wrap (Z.sqrt (p * 2 ^ 64))) (firstn 8 primes).

(** The padded message: the bytes, then 0x80, zero bytes up to 56 modulo
    64, and the bit length on eight bytes, most significant first. *)
Definition bigEndian (width : nat) (x : Z) : list Z :=
  map (fun i => (x / 2 ^ (8 * Z.of_nat i)) mod 256) (rev (seq 0 width)).

Definition pad (msg : list Z) : list Z :=
  let n := Z.of_nat (length msg) in
  let zeros := Z.to_nat ((55 - n) mod 64) in
  msg ++ [128] ++ repeat 0 zeros ++ bigEndian 8 (8 * n).

Fixpoint words (fuel : nat) (bs : list Z) : list Z :=
  match fuel, bs with
  | S fuel', b0 :: b1 :: b2 :: b3 :: rest =>
      (((b0 * 256 + b1) * 256 + b2) * 256 + b3) :: words fuel' rest
  | _, _ => []
  end.

(** One more word of the message schedule, which is kept latest word
    first. *)
Definition extend (r : list Z) : list Z :=
  let w2 := nth 1 r 0 in
  let w7 := nth 6 r 0 in
  let w15 := nth 14 r 0 in
  let w16 := nth 15 r 0 in
  let s0 := Z.lxor (Z.lxor (rotr 7 w15) (rotr 18 w15)) (Z.shiftr w15 3) in
  let s1 := Z.lxor (Z.lxor (rotr 17 w2) (rotr 19 w2)) (Z.shiftr w2 10) in
  add (add (add s1 w7) s0) w16 :: r.

Definition schedule (block : list Z) : list Z :=
  rev (Nat.iter 48 extend (rev block)).

Definition round (st : list Z) (kw : Z * Z) : list Z :=
  match st with
  | [a; b; c; d; e; f; g; h] =>
      let S1 := Z.lxor (Z.lxor (rotr 6 e) (rotr 11 e)) (rotr 25 e) in
      let ch := Z.lxor (Z.land e f) (Z.land (not32 e) g) in
      let t1 := add (add (add (add h S1) ch) (fst kw)) (snd kw) in
      let S0 := Z.lxor (Z.lxor (rotr 2 a) (rotr 13 a)) (rotr 22 a) in
      let maj := Z.lxor (Z.lxor (Z.land a b) (Z.land a c)) (Z.land b c) in
      let t2 := add S0 maj in
      [add t1 t2; a; b; c; add d t1; e; f; g]
  | _ => st
  end.

Definition compress (st block : list Z) : list Z :=
  let out := List.fold_left round (combine K (schedule block)) st in
  map (fun p => add (fst p) (snd p)) (combine st out).

Fixpoint blocks (fuel : nat) (ws : list Z) (st : list Z) : list Z :=
  match fuel with
  | O => st
  | S fuel' =>
      match ws with
      | [] => st
      | _ => blocks fuel' (skipn 16 ws) (compress st (firstn 16 ws))
      end
  end.

Definition digest (msg : list Z) : list Z :=
  let bs := pad msg in
  let ws := words (length bs) bs in
  flat_map (bigEndian 4) (blocks (length ws) ws init).

Definition Sum256 (data : string) : list Byte.byte :=
  map (fun z => byte_of_ascii (ascii_of_N (Z.to_N z)))
      (digest (map (fun a => Z.of_N (N_of_ascii a)) (list_ascii_of_string data))).

End sha256.

(** Modelled from the spec: [isSameStringSet] is defined in a sibling file;
    environments are compared as sets, so two slices are the same set when
    they have the same elements, whatever the order and the repetitions. *)
Definition sameStringSet (a b : list string) : bool :=
  forallb (fun x => bool_decide (x ∈ b)) a && forallb (fun x => bool_decide (x ∈ a)) b.

(** The platform used for the worked cases below: SHA-256, set comparison,
    a team ID that is null when empty, and maps visited in the order of
    [map_to_list]. *)
#[global] Program Instance goPlatform : Platform := {|
  Sum256 := sha256.Sum256;
  isSameStringSet := sameStringSet;
  toTeamID := fun id => if String.eqb id "" then StringNull else StringValue id;
  range := fun A m => map_to_list m;
|}.
Next Obligation. reflexivity. Qed.

(** An in-memory remote system: the entries it holds, and the failures it is
    set up to answer with. *)
Module inmemory.

Record Remote : Type := {
  live : list client.EnvironmentVariable;
  deleteFailure : option client.error;
  createFailure : option client.error;
}.

Definition created (r : client.EnvironmentVariableRequest) : client.EnvironmentVariable :=
  {| client.Key := client.reqKey r;
     client.Value := client.reqValue r;
     client.Target := client.reqTarget r;
     client.CustomEnvironmentIDs := client.reqCustomEnvironmentIDs r;
     client.Type_ := client.reqType r;
     client.ID := "env_" +:+ client.reqKey r;
     client.GitBranch := client.reqGitBranch r;
     client.Comment := client.reqComment r;
     client.Decrypted := Some true |}.

Definition holds (w : Remote) (id : string) : bool :=
  existsb (fun e => String.eqb (client.ID e) id) (live w).

Definition delete (w : Remote) (projectID teamID id : string)
  : Remote * option client.error :=
  match deleteFailure w with
  | Some err => (w, Some err)
  | None =>
      if holds w id then
        ({| live := List.filter (fun e => negb (String.eqb (client.ID e) id)) (live w);
            deleteFailure := None;
            createFailure := createFailure w |}, None)
      else (w, Some (client.ErrNotFound "env var not found"))
  end.

Definition create (w : Remote) (r : client.CreateEnvironmentVariablesRequest)
  : Remote * (list client.EnvironmentVariable * option client.error) :=
  match createFailure w with
  | Some err => (w, ([], Some err))
  | None =>
      let new := map created (client.EnvironmentVariables r) in
      ({| live := live w ++ new;
          deleteFailure := deleteFailure w;
          createFailure := None |}, (new, None))
  end.

#[global] Instance remote : client.Client Remote := {|
  client.GetProject := fun w _ _ => (w, None);
  client.GetEnvironmentVariables := fun w _ _ => (w, (live w, None));
  client.CreateEnvironmentVariables := create;
  client.DeleteEnvironmentVariable := delete;
|}.

End inmemory.

(** A team whose policy forces sensitive variables, for the in-memory remote
    system. *)
#[global] Instance strictTeam : TeamClient inmemory.Remote := {|
  Team := fun w _ => (w, ({| SensitiveEnvironmentVariablePolicy := Some "on" |}, None));
|}.

(** The platform of [goPlatform] with every map visited in the opposite
    order. *)
Program Definition reversedPlatform : Platform := {|
  Sum256 := sha256.Sum256;
  isSameStringSet := sameStringSet;
  toTeamID := fun id => if String.eqb id "" then StringNull else StringValue id;
  range := fun A m => rev (map_to_list m);
|}.
Next Obligation. intros A m. apply Permutation_sym, Permutation_rev. Qed.

(** Small inputs for the worked cases: a variable of the [production]
    environment, a live entry of the same environment, a resource of project
    [prj] in team [team], and a remote system that answers without failure. *)
Definition item (id : string) (value : tfString) (sensitive : bool) : EnvironmentItem :=
  {| Target := SetValue ["production"]; CustomEnvironmentIDs := SetNull;
     GitBranch := StringNull; Value := value; ID := StringValue id;
     Sensitive := BoolValue sensitive; Comment := StringNull |}.

Definition liveEntry (key id value type : string) : client.EnvironmentVariable :=
  {| client.Key := key; client.Value := value; client.Target := ["production"];
     client.CustomEnvironmentIDs := []; client.Type_ := type; client.ID := id;
     client.GitBranch := None; client.Comment := ""; client.Decrypted := Some true |}.

Definition resourceOf (vars : gmap string EnvironmentItem) : ProjectEnvironmentVariables :=
  {| TeamID := StringValue "team"; ProjectID := StringValue "prj"; Variables := Some vars |}.

Definition remoteOf (l : list client.EnvironmentVariable) : inmemory.Remote :=
  {| inmemory.live := l; inmemory.deleteFailure := None; inmemory.createFailure := None |}.

(** * Properties *)

(** ** Formatting and trimming *)

Lemma hexDigit_not_quote (n : N) : hexDigit n <> quote.
Proof.
  destruct n as [|p]; [discriminate|].
  do 4 (destruct p as [p|p|]; try discriminate).
Qed.

Lemma sprintf_x_quoteFree (bs : list Byte.byte) : quoteFree (sprintf_x bs).
Proof.
  induction bs as [|b bs IH]; simpl; [exact I|].
  repeat split; auto using hexDigit_not_quote.
Qed.

Lemma TrimLeft_quoteFree (s t : string) :
  quoteFree s -> s <> "" -> TrimLeft quote (s +:+ t) = s +:+ t.
Proof.
  destruct s as [|a s]; [congruence|].
  intros [Ha _] _. simpl.
  destruct (Ascii.eqb_spec a quote) as [-> |_]; [contradiction|reflexivity].
Qed.

Lemma TrimRight_quoteFree (s : string) :
  quoteFree s -> TrimRight quote (s +:+ String quote "") = s.
Proof.
  induction s as [|a s IH]; [reflexivity|].
  intros [Ha Hs]. simpl. rewrite (IH Hs).
  destruct s; [|reflexivity].
  destruct (Ascii.eqb_spec a quote) as [-> |_]; [contradiction|reflexivity].
Qed.

(** Two hexadecimal digits determine their byte. *)
Lemma unhex_hex (b : Byte.byte) :
  Byte.of_N (16 * unhexDigit (hexDigit (Byte.to_N b / 16))
             + unhexDigit (hexDigit (Byte.to_N b mod 16)))%N = Some b.
Proof. destruct b; reflexivity. Qed.

Lemma sprintf_x_inj (h1 h2 : list Byte.byte) :
  sprintf_x h1 = sprintf_x h2 -> h1 = h2.
Proof.
  revert h2; induction h1 as [|b1 h1 IH]; intros [|b2 h2]; simpl;
    try discriminate; [reflexivity|].
  intros H; injection H as Hhi Hlo Hrest.
  f_equal; [|auto].
  pose proof (unhex_hex b1) as E1. pose proof (unhex_hex b2) as E2.
  rewrite Hhi, Hlo in E1. congruence.
Qed.

Section Properties.
Context {World : Type} `{!client.Client World} `{!Platform}.

Lemma Trim_storedForm (hash : list Byte.byte) :
  Trim (storedForm hash) quote = sprintf_x hash.
Proof.
  unfold Trim, storedForm. cbn [TrimLeft].
  replace (Ascii.eqb quote quote) with true by reflexivity.
  destruct hash as [|b hash]; [reflexivity|].
  rewrite TrimLeft_quoteFree; [|apply sprintf_x_quoteFree|discriminate].
  apply TrimRight_quoteFree, sprintf_x_quoteFree.
Qed.

(** *** The order of a [range] loop *)

Lemma elem_of_range {A : Type} (m : gmap string A) (k : string) (v : A) :
  (k, v) ∈ range m <-> m !! k = Some v.
Proof. rewrite (range_perm A m). apply elem_of_map_to_list. Qed.

Lemma NoDup_fst_range {A : Type} (m : gmap string A) : NoDup (range m).*1.
Proof. rewrite (range_perm A m). apply NoDup_fst_map_to_list. Qed.

Lemma range_nil {A : Type} (m : gmap string A) : range m = [] <-> m = ∅.
Proof.
  split.
  - intros E. apply map_to_list_empty_iff.
    apply Permutation_nil_r. rewrite <- (range_perm A m), E. reflexivity.
  - intros ->. apply Permutation_nil_r.
    rewrite (range_perm A ∅), map_to_list_empty. reflexivity.
Qed.

(** *** The drift check *)

Lemma storedHashMatches_true (private : gmap string string)
    (privateKey : string) (hash : list Byte.byte) :
  storedHashMatches private privateKey hash = true <->
  exists stored, private !! privateKey = Some stored /\ stored <> ""
                 /\ Trim stored quote = sprintf_x hash.
Proof.
  unfold storedHashMatches, GetKey.
  rewrite andb_true_iff, Nat.ltb_lt, String.eqb_eq. split.
  - intros [Hlen Heq]. destruct (private !! privateKey) as [stored|]; simpl in *.
    + exists stored. repeat split; auto. intros ->. simpl in Hlen. lia.
    + lia.
  - intros (stored & -> & Hne & Heq). simpl. split; [|exact Heq].
    destruct stored; [congruence|simpl; lia].
Qed.

Lemma requiresReplace_fold (private : gmap string string) (prefix : string)
    (l : list (string * EnvironmentItem)) (acc : list (list string)) (p : list string) :
  p ∈ foldl (fun requiresReplace kv =>
               let hash := Sum256 (ValueString (Value kv.2)) in
               let privateKey := prefix +:+ kv.1 in
               if storedHashMatches private privateKey hash
               then requiresReplace
               else requiresReplace ++ [valuePath kv.1]) acc l
  <-> p ∈ acc \/
      exists kv, kv ∈ l /\ p = valuePath kv.1 /\
        storedHashMatches private (prefix +:+ kv.1)
          (Sum256 (ValueString (Value kv.2))) = false.
Proof.
  revert acc; induction l as [|kv l IH]; intros acc; simpl.
  - split; [auto|]. intros [?|(kv & Hin & _)]; [done|]. by apply elem_of_nil in Hin.
  - rewrite IH. clear IH.
    destruct (storedHashMatches _ _ _) eqn:E.
    + split; intros [?|(kv' & Hin & Hp & Hm)]; auto.
      * right. exists kv'. rewrite elem_of_cons. auto.
      * apply elem_of_cons in Hin as [-> |Hin]; [congruence|]. right; eauto.
    + rewrite elem_of_app, list_elem_of_singleton.
      split.
      * intros [[?| ->]|(kv' & Hin & Hp & Hm)]; auto.
        -- right. exists kv. rewrite elem_of_cons. auto.
        -- right. exists kv'. rewrite elem_of_cons. auto.
      * intros [?|(kv' & Hin & Hp & Hm)]; auto.
        apply elem_of_cons in Hin as [-> |Hin]; [auto|]. right; eauto.
Qed.

Lemma requiresReplace_iff (config : ProjectEnvironmentVariables)
    (private : gmap string string) (key : string) (env : EnvironmentItem) :
  environment config !! key = Some env ->
  valuePath key ∈ suppressWriteOnlyEnvVarUpdates config private <->
  storedHashMatches private (privatePrefix config +:+ key)
    (Sum256 (ValueString (Value env))) = false.
Proof.
  intros Hkey. unfold suppressWriteOnlyEnvVarUpdates.
  rewrite requiresReplace_fold. split.
  - intros [Hnil|([k e] & Hin & Hp & Hm)]; [by apply elem_of_nil in Hnil|].
    simpl in *. injection Hp as <-.
    apply elem_of_range in Hin. congruence.
  - intros Hm. right. exists (key, env). rewrite elem_of_range. auto.
Qed.

(** *** The map of the entries read from the API *)



(** *** The first loop: [toAdd] before the recorded variables are visited *)

Lemma planAdditions_fold (configEnvs : gmap string EnvironmentItem)
    (api : gmap string client.EnvironmentVariable)
    (l : list (string * EnvironmentItem)) (acc : gmap string EnvironmentItem)
    (k : string) :
  foldl (fun (toAdd : gmap string EnvironmentItem) (kv : string * EnvironmentItem) =>
           match api !! kv.1 with
           | Some _ => toAdd
           | None => <[kv.1 := index configEnvs kv.1]> toAdd
           end) acc l !! k
  = match api !! k with
    | None => if decide (k ∈ l.*1) then Some (index configEnvs k) else acc !! k
    | Some _ => acc !! k
    end.
Proof.
  revert acc; induction l as [|[k' e'] l IH]; intros acc.
  - cbn [foldl]. destruct (api !! k); [reflexivity|].
    case_decide as Hin; [|reflexivity]. by apply elem_of_nil in Hin.
  - cbn [foldl fst]. rewrite IH. clear IH. rewrite fmap_cons. cbn [fst].
    destruct (api !! k) eqn:Ek.
    + destruct (api !! k') eqn:Ek'; [reflexivity|].
      rewrite lookup_insert_ne; [reflexivity|congruence].
    + destruct (decide (k ∈ l.*1)) as [Hin|Hin].
      * rewrite decide_True by (by apply list_elem_of_further). reflexivity.
      * destruct (decide (k' = k)) as [-> |Hne].
        -- rewrite decide_True by apply list_elem_of_here.
           by rewrite Ek, lookup_insert_eq.
        -- rewrite decide_False.
           ++ destruct (api !! k'); [reflexivity|]. by rewrite lookup_insert_ne.
           ++ intros Hcons. apply elem_of_cons in Hcons as [E|E]; auto.
Qed.

Lemma elem_of_range_fst {A : Type} (m : gmap string A) (k : string) :
  k ∈ (range m).*1 <-> is_Some (m !! k).
Proof.
  rewrite list_elem_of_fmap. split.
  - intros ([k' v] & -> & Hin). apply elem_of_range in Hin. eauto.
  - intros [v Hv]. exists (k, v). split; [reflexivity|]. by apply elem_of_range.
Qed.

Lemma planAdditions_lookup (planEnvs configEnvs : gmap string EnvironmentItem)
    (api : gmap string client.EnvironmentVariable) (k : string) :
  planAdditions planEnvs configEnvs api !! k
  = match planEnvs !! k, api !! k with
    | Some _, None => Some (index configEnvs k)
    | _, _ => None
    end.
Proof.
  unfold planAdditions. rewrite planAdditions_fold, lookup_empty.
  destruct (api !! k); [by destruct (planEnvs !! k)|].
  destruct (decide (k ∈ (range planEnvs).*1)) as [Hin|Hin].
  - apply elem_of_range_fst in Hin as [v ->]. reflexivity.
  - destruct (planEnvs !! k) eqn:E; [|reflexivity].
    exfalso. apply Hin, elem_of_range_fst. eauto.
Qed.

(** *** The second loop, one recorded variable at a time *)

Section Classify.
Variables (prefix : string) (planEnvs configEnvs : gmap string EnvironmentItem).
Variable api : gmap string client.EnvironmentVariable.

Let step := classify prefix planEnvs configEnvs api.
Let drops := dropped planEnvs.
Let swaps := replaced planEnvs configEnvs api.

Lemma classify_toRemove (st : Planned) (kv : string * EnvironmentItem) (k : string) :
  toRemove (operations (step st kv)) !! k
  = if decide (k = kv.1)
    then if drops kv.1 || swaps kv.1 kv.2 then Some kv.2
         else toRemove (operations st) !! k
    else toRemove (operations st) !! k.
Proof.
  subst step drops swaps. unfold classify, dropped, replaced.
  destruct kv as [k' e]; cbn [fst snd].
  destruct (planEnvs !! k') eqn:Ep; [destruct (api !! k') eqn:Ea|]; cbn [orb].
  - destruct (_ || _); cbn [operations toRemove].
    + rewrite lookup_insert. repeat case_decide; congruence.
    + case_decide; reflexivity.
  - cbn [operations toRemove]. case_decide; reflexivity.
  - cbn [operations toRemove]. rewrite lookup_insert.
    repeat case_decide; congruence.
Qed.

Lemma classify_unchanged (st : Planned) (kv : string * EnvironmentItem) (k : string) :
  unchanged (operations (step st kv)) !! k
  = if decide (k = kv.1)
    then if drops kv.1 || swaps kv.1 kv.2 then unchanged (operations st) !! k
         else Some kv.2
    else unchanged (operations st) !! k.
Proof.
  subst step drops swaps. unfold classify, dropped, replaced.
  destruct kv as [k' e]; cbn [fst snd].
  destruct (planEnvs !! k') eqn:Ep; [destruct (api !! k') eqn:Ea|]; cbn [orb].
  - destruct (_ || _); cbn [operations unchanged].
    + case_decide; reflexivity.
    + rewrite lookup_insert. repeat case_decide; congruence.
  - cbn [operations unchanged]. rewrite lookup_insert.
    repeat case_decide; congruence.
  - cbn [operations unchanged]. case_decide; reflexivity.
Qed.

Lemma classify_toAdd (st : Planned) (kv : string * EnvironmentItem) (k : string) :
  toAdd (operations (step st kv)) !! k
  = if decide (k = kv.1)
    then if swaps kv.1 kv.2 then Some (index configEnvs k)
         else toAdd (operations st) !! k
    else toAdd (operations st) !! k.
Proof.
  subst step drops swaps. unfold classify, replaced.
  destruct kv as [k' e]; cbn [fst snd].
  destruct (planEnvs !! k') eqn:Ep; [destruct (api !! k') eqn:Ea|].
  - destruct (_ || _); cbn [operations toAdd].
    + rewrite lookup_insert. repeat case_decide; congruence.
    + case_decide; reflexivity.
  - cbn [operations toAdd]. case_decide; reflexivity.
  - cbn [operations toAdd]. case_decide; reflexivity.
Qed.

Lemma classify_private (st : Planned) (kv : string * EnvironmentItem) (pk : string) :
  planPrivate (step st kv) !! pk
  = if decide (pk = prefix +:+ kv.1)
    then if drops kv.1 then None else planPrivate st !! pk
    else planPrivate st !! pk.
Proof.
  subst step drops swaps. unfold classify, dropped, SetKey.
  destruct kv as [k' e]; cbn [fst snd].
  destruct (planEnvs !! k') eqn:Ep; [destruct (api !! k') eqn:Ea|].
  - destruct (_ || _); cbn [planPrivate]; case_decide; reflexivity.
  - cbn [planPrivate]. case_decide; reflexivity.
  - cbn [planPrivate String.eqb]. rewrite lookup_delete.
    repeat case_decide; congruence.
Qed.

Lemma classify_trace (st : Planned) (kv : string * EnvironmentItem) :
  planTrace (step st kv)
  = planTrace st ++ (if drops kv.1 then [EvSetKey (prefix +:+ kv.1) ""] else []).
Proof.
  subst step drops swaps. unfold classify, dropped.
  destruct kv as [k' e]; cbn [fst snd].
  destruct (planEnvs !! k') eqn:Ep; [destruct (api !! k') eqn:Ea|].
  - destruct (_ || _); cbn [planTrace]; by rewrite app_nil_r.
  - cbn [planTrace]. by rewrite app_nil_r.
  - reflexivity.
Qed.

(** The loop over a list of recorded variables with distinct names. *)
Lemma classify_fold_toRemove (l : list (string * EnvironmentItem)) (st : Planned)
    (k : string) :
  NoDup l.*1 ->
  toRemove (operations (foldl step st l)) !! k
  = match (list_to_map l : gmap string EnvironmentItem) !! k with
    | Some e => if drops k || swaps k e then Some e
                else toRemove (operations st) !! k
    | None => toRemove (operations st) !! k
    end.
Proof.
  revert st; induction l as [|[k' e'] l IH]; intros st Hnd.
  - cbn [foldl]. by rewrite list_to_map_nil, lookup_empty.
  - rewrite fmap_cons in Hnd. apply NoDup_cons in Hnd as [Hk' Hnd].
    cbn [foldl]. rewrite list_to_map_cons, (IH _ Hnd), classify_toRemove.
    cbn [fst snd]. rewrite lookup_insert.
    destruct (decide (k' = k)) as [-> |Hne].
    + rewrite (not_elem_of_list_to_map_1 _ _ Hk').
      rewrite decide_True by reflexivity. reflexivity.
    + rewrite decide_False by congruence. reflexivity.
Qed.

Lemma classify_fold_unchanged (l : list (string * EnvironmentItem)) (st : Planned)
    (k : string) :
  NoDup l.*1 ->
  unchanged (operations (foldl step st l)) !! k
  = match (list_to_map l : gmap string EnvironmentItem) !! k with
    | Some e => if drops k || swaps k e then unchanged (operations st) !! k
                else Some e
    | None => unchanged (operations st) !! k
    end.
Proof.
  revert st; induction l as [|[k' e'] l IH]; intros st Hnd.
  - cbn [foldl]. by rewrite list_to_map_nil, lookup_empty.
  - rewrite fmap_cons in Hnd. apply NoDup_cons in Hnd as [Hk' Hnd].
    cbn [foldl]. rewrite list_to_map_cons, (IH _ Hnd), classify_unchanged.
    cbn [fst snd]. rewrite lookup_insert.
    destruct (decide (k' = k)) as [-> |Hne].
    + rewrite (not_elem_of_list_to_map_1 _ _ Hk').
      rewrite decide_True by reflexivity. reflexivity.
    + rewrite decide_False by congruence. reflexivity.
Qed.

Lemma classify_fold_toAdd (l : list (string * EnvironmentItem)) (st : Planned)
    (k : string) :
  NoDup l.*1 ->
  toAdd (operations (foldl step st l)) !! k
  = match (list_to_map l : gmap string EnvironmentItem) !! k with
    | Some e => if swaps k e then Some (index configEnvs k)
                else toAdd (operations st) !! k
    | None => toAdd (operations st) !! k
    end.
Proof.
  revert st; induction l as [|[k' e'] l IH]; intros st Hnd.
  - cbn [foldl]. by rewrite list_to_map_nil, lookup_empty.
  - rewrite fmap_cons in Hnd. apply NoDup_cons in Hnd as [Hk' Hnd].
    cbn [foldl]. rewrite list_to_map_cons, (IH _ Hnd), classify_toAdd.
    cbn [fst snd]. rewrite lookup_insert.
    destruct (decide (k' = k)) as [-> |Hne].
    + rewrite (not_elem_of_list_to_map_1 _ _ Hk').
      rewrite decide_True by reflexivity. reflexivity.
    + rewrite decide_False by congruence. reflexivity.
Qed.
End Classify.

Lemma list_to_map_range {A : Type} (m : gmap string A) : list_to_map (range m) = m.
Proof.
  rewrite <- (list_to_map_to_list m) at 2.
  apply list_to_map_proper; [apply NoDup_fst_range|apply range_perm].
Qed.

(** *** The plan, entry by entry *)

Section Plan.
Variables (prefix : string) (planEnvs configEnvs stateEnvs : gmap string EnvironmentItem).
Variable envsFromAPI : list client.EnvironmentVariable.
Variable private : gmap string string.

Let api := envsFromAPIMapOf envsFromAPI.
Let planned := reconcile prefix planEnvs configEnvs stateEnvs envsFromAPI private.

Lemma reconcile_toRemove (k : string) :
  toRemove (operations planned) !! k
  = match stateEnvs !! k with
    | Some e =>
        if dropped planEnvs k || replaced planEnvs configEnvs api k e
        then Some e else None
    | None => None
    end.
Proof.
  subst planned api. unfold reconcile.
  rewrite classify_fold_toRemove by apply NoDup_fst_range.
  rewrite list_to_map_range. cbn [operations toRemove]. rewrite lookup_empty.
  reflexivity.
Qed.

Lemma reconcile_unchanged (k : string) :
  unchanged (operations planned) !! k
  = match stateEnvs !! k with
    | Some e =>
        if dropped planEnvs k || replaced planEnvs configEnvs api k e
        then None else Some e
    | None => None
    end.
Proof.
  subst planned api. unfold reconcile.
  rewrite classify_fold_unchanged by apply NoDup_fst_range.
  rewrite list_to_map_range. cbn [operations unchanged]. rewrite lookup_empty.
  reflexivity.
Qed.

Lemma reconcile_toAdd (k : string) :
  toAdd (operations planned) !! k
  = match planEnvs !! k with
    | Some _ =>
        match api !! k with
        | None => Some (index configEnvs k)
        | Some _ =>
            match stateEnvs !! k with
            | Some e =>
                if replaced planEnvs configEnvs api k e
                then Some (index configEnvs k) else None
            | None => None
            end
        end
    | None => None
    end.
Proof.
  subst planned api. unfold reconcile.
  rewrite classify_fold_toAdd by apply NoDup_fst_range.
  rewrite list_to_map_range. cbn [operations toAdd].
  rewrite planAdditions_lookup. unfold replaced.
  destruct (planEnvs !! k), (envsFromAPIMapOf envsFromAPI !! k),
    (stateEnvs !! k); reflexivity.
Qed.

Lemma classify_fold_private_cleared (l : list (string * EnvironmentItem))
    (st : Planned) (k : string) :
  planPrivate st !! (prefix +:+ k) = None
  \/ (k ∈ l.*1 /\ planEnvs !! k = None) ->
  planPrivate (foldl (classify prefix planEnvs configEnvs api) st l)
    !! (prefix +:+ k) = None.
Proof.
  revert st; induction l as [|kv l IH]; intros st.
  - intros [Hst|[Hin _]]; [exact Hst|]. by apply elem_of_nil in Hin.
  - intros Hk. cbn [foldl]. apply IH. rewrite classify_private.
    destruct Hk as [Hst|[Hin Hp]].
    + left. repeat case_match; auto.
    + rewrite fmap_cons in Hin. apply elem_of_cons in Hin as [-> |Hin]; [|auto].
      left. rewrite decide_True by reflexivity.
      unfold dropped. by rewrite Hp.
Qed.

Lemma classify_fold_private_kept (l : list (string * EnvironmentItem))
    (st : Planned) (k : string) :
  is_Some (planEnvs !! k) ->
  planPrivate (foldl (classify prefix planEnvs configEnvs api) st l)
    !! (prefix +:+ k) = planPrivate st !! (prefix +:+ k).
Proof.
  intros [v Hv]. revert st; induction l as [|kv l IH]; intros st; [reflexivity|].
  cbn [foldl]. rewrite IH, classify_private.
  case_decide as E; [|reflexivity].
  apply String.app_inj in E. subst k. unfold dropped. by rewrite Hv.
Qed.

Lemma classify_fold_trace (l : list (string * EnvironmentItem)) (st : Planned) :
  Forall (fun ev => isRemoteCall ev = false) (planTrace st) ->
  Forall (fun ev => isRemoteCall ev = false)
    (planTrace (foldl (classify prefix planEnvs configEnvs api) st l)).
Proof.
  revert st; induction l as [|kv l IH]; intros st Hst; [exact Hst|].
  cbn [foldl]. apply IH. rewrite classify_trace.
  apply Forall_app. split; [exact Hst|].
  destruct (dropped planEnvs kv.1); repeat constructor.
Qed.

Lemma reconcile_private_cleared (k : string) :
  is_Some (stateEnvs !! k) -> planEnvs !! k = None ->
  planPrivate planned !! (prefix +:+ k) = None.
Proof.
  intros Hs Hp. subst planned. unfold reconcile.
  apply classify_fold_private_cleared. right.
  split; [by apply elem_of_range_fst|exact Hp].
Qed.

Lemma reconcile_private_kept (k : string) :
  is_Some (planEnvs !! k) ->
  planPrivate planned !! (prefix +:+ k) = private !! (prefix +:+ k).
Proof.
  intros Hp. subst planned. unfold reconcile.
  by rewrite classify_fold_private_kept.
Qed.

Lemma reconcile_trace :
  Forall (fun ev => isRemoteCall ev = false) (planTrace planned).
Proof. subst planned. unfold reconcile. apply classify_fold_trace. constructor. Qed.
End Plan.

(** *** The digests written by [Create] and [Update] *)

Lemma SetKey_storedForm (p : gmap string string) (key : string) (hash : list Byte.byte) :
  SetKey p key (storedForm hash) = <[key := storedForm hash]> p.
Proof. reflexivity. Qed.

Lemma setHashes_fold (prefix : string) (l : list (string * EnvironmentItem))
    (st : gmap string string * list Event) :
  let f := fun (st : gmap string string * list Event) (kv : string * EnvironmentItem) =>
             let hash := Sum256 (ValueString (Value kv.2)) in
             let privateKey := prefix +:+ kv.1 in
             (SetKey st.1 privateKey (storedForm hash),
              st.2 ++ [EvSetKey privateKey (storedForm hash)]) in
  (foldl f st l).2
  = st.2 ++ ((fun kv => EvSetKey (prefix +:+ kv.1)
                          (storedForm (Sum256 (ValueString (Value kv.2))))) <$> l)
  /\ forall k,
      NoDup l.*1 ->
      (foldl f st l).1 !! (prefix +:+ k)
      = match (list_to_map l : gmap string EnvironmentItem) !! k with
        | Some env => Some (storedForm (Sum256 (ValueString (Value env))))
        | None => st.1 !! (prefix +:+ k)
        end.
Proof.
  intros f. revert st; induction l as [|[k' e'] l IH]; intros st.
  - cbn [foldl fmap list_fmap]. rewrite app_nil_r. split; [reflexivity|].
    intros k _. by rewrite list_to_map_nil, lookup_empty.
  - cbn [foldl]. destruct (IH (f st (k', e'))) as [IHt IHp]. split.
    + rewrite IHt. subst f. cbn [fst snd]. rewrite fmap_cons, <- app_assoc.
      reflexivity.
    + intros k Hnd. rewrite fmap_cons in Hnd. apply NoDup_cons in Hnd as [Hk' Hnd].
      rewrite (IHp k Hnd), list_to_map_cons, lookup_insert. cbn [fst snd].
      destruct (decide (k' = k)) as [-> |Hne].
      * rewrite (not_elem_of_list_to_map_1 _ _ Hk').
        subst f. cbn [fst snd]. by rewrite SetKey_storedForm, lookup_insert_eq.
      * destruct (list_to_map l !! k); [reflexivity|].
        subst f. cbn [fst snd]. rewrite SetKey_storedForm, lookup_insert_ne;
          [reflexivity|].
        intros E. apply String.app_inj in E. congruence.
Qed.

Lemma setHashes_trace (prefix : string) (envs : gmap string EnvironmentItem)
    (private : gmap string string) :
  (setHashes prefix envs private).2
  = (fun kv => EvSetKey (prefix +:+ kv.1)
                 (storedForm (Sum256 (ValueString (Value kv.2))))) <$> range envs.
Proof. unfold setHashes. by rewrite (proj1 (setHashes_fold _ _ _)). Qed.

Lemma setHashes_lookup (prefix : string) (envs : gmap string EnvironmentItem)
    (private : gmap string string) (k : string) :
  (setHashes prefix envs private).1 !! (prefix +:+ k)
  = match envs !! k with
    | Some env => Some (storedForm (Sum256 (ValueString (Value env))))
    | None => private !! (prefix +:+ k)
    end.
Proof.
  unfold setHashes.
  rewrite (proj2 (setHashes_fold _ _ _)) by apply NoDup_fst_range.
  by rewrite list_to_map_range.
Qed.

(** *** The removals *)

Lemma removeAll_trace (w : World) (state : ProjectEnvironmentVariables)
    (l : list (string * EnvironmentItem)) :
  let r := removeAll w (ValueString (ProjectID state)) (ValueString (TeamID state)) l in
  exists done,
    done `prefix_of` l /\ r.1.2 = deleteEvent state <$> done
    /\ (r.2 = None -> done = l)
    /\ (l <> [] -> done <> []).
Proof.
  revert w; induction l as [|kv l IH]; intros w; cbn zeta.
  - exists []. repeat split; auto.
  - cbn [removeAll].
    set (r := client.DeleteEnvironmentVariable w _ _ _).
    destruct (IH r.1) as (done & Hpre & Htr & Hall & _).
    assert (Hcont :
      let rest := removeAll r.1 (ValueString (ProjectID state))
                    (ValueString (TeamID state)) l in
      exists done0,
        done0 `prefix_of` kv :: l
        /\ EvDeleteEnvironmentVariable (ValueString (ProjectID state))
             (ValueString (TeamID state)) (ValueString (ID kv.2)) :: rest.1.2
           = deleteEvent state <$> done0
        /\ (rest.2 = None -> done0 = kv :: l)
        /\ (kv :: l <> [] -> done0 <> [])).
    { exists (kv :: done). repeat split.
      - by apply prefix_cons.
      - rewrite fmap_cons. cbn zeta in Htr. rewrite Htr. reflexivity.
      - intros E. f_equal. by apply Hall.
      - discriminate. }
    destruct (client.NotFound r.2); [exact Hcont|].
    destruct r.2 as [err|]; [|exact Hcont].
    exists [kv]. repeat split.
    + apply prefix_cons, prefix_nil.
    + discriminate.
    + discriminate.
Qed.

(** ** C5: deletions first, then the pause, then the batched create *)

(** C5.  In every application of a plan the remote calls are, in this
    order: deletions of the entries of [toRemove], taken in loop order; when
    one of them fails with anything but "not found" nothing follows it; when
    none does, every entry of [toRemove] has been deleted and, if [toAdd] is
    not empty, the single batched create follows, with a pause of five
    seconds between the last deletion and the create exactly when [toRemove]
    is not empty. *)
Theorem applyPlan_sequencing (w : World) (planned state : ProjectEnvironmentVariables)
    (p : OperationPlan) :
  let a := applyPlan w planned state p in
  let create :=
    EvCreateEnvironmentVariables
      (toCreateEnvironmentVariablesRequest (toAdd p) (ProjectID planned)
         (TeamID planned)) in
  let removal :=
    removeAll w (ValueString (ProjectID state)) (ValueString (TeamID state))
      (range (toRemove p)) in
  exists done,
    done `prefix_of` range (toRemove p) /\
    match removal.2 with
    | Some d =>
        appliedTrace a = (deleteEvent state <$> done) /\ appliedResult a = inl d
    | None =>
        done = range (toRemove p) /\
        ((toAdd p = ∅ /\ appliedTrace a = (deleteEvent state <$> done))
         \/ (toAdd p <> ∅ /\ toRemove p = ∅ /\ appliedTrace a = [create])
         \/ (toAdd p <> ∅ /\ toRemove p <> ∅
             /\ appliedTrace a
                = (deleteEvent state <$> done) ++ [EvSleep (Second * 5); create]))
    end.
Proof.
  cbn zeta. unfold applyPlan.
  destruct (removeAll_trace w state (range (toRemove p)))
    as (done & Hpre & Htr & Hall & _).
  cbn zeta in Htr, Hall. exists done. split; [exact Hpre|].
  destruct (removeAll _ _ _ _).2 as [d|] eqn:Efail.
  - cbn [appliedTrace appliedResult]. split; [exact Htr|reflexivity].
  - specialize (Hall eq_refl). subst done. split; [reflexivity|].
    destruct (0 <? size (toAdd p))%nat eqn:Eadd.
    + right. apply Nat.ltb_lt in Eadd.
      assert (toAdd p <> ∅) as Hadd.
      { intros E. rewrite E, map_size_empty in Eadd. lia. }
      destruct (0 <? size (toRemove p))%nat eqn:Erem.
      * right. apply Nat.ltb_lt in Erem. split; [exact Hadd|]. split.
        { intros E. rewrite E, map_size_empty in Erem. lia. }
        destruct (client.CreateEnvironmentVariables _ _).2.2;
          cbn [appliedTrace]; by rewrite Htr.
      * left. apply Nat.ltb_ge in Erem.
        assert (toRemove p = ∅) as Hrem by (apply map_size_empty_iff; lia).
        split; [exact Hadd|]. split; [exact Hrem|].
        assert (range (toRemove p) = []) as Hnil by (by apply range_nil).
        destruct (client.CreateEnvironmentVariables _ _).2.2;
          cbn [appliedTrace]; by rewrite Htr, Hnil.
    + left. apply Nat.ltb_ge in Eadd. cbn [appliedTrace]. split; [|exact Htr].
      apply map_size_empty_iff. lia.
Qed.

(** ** The plan of [Update] *)

Lemma replaced_true (planEnvs configEnvs : gmap string EnvironmentItem)
    (api : gmap string client.EnvironmentVariable) (k : string) (e : EnvironmentItem) :
  replaced planEnvs configEnvs api k e = true <->
  is_Some (planEnvs !! k) /\
  exists apiEnv, api !! k = Some apiEnv /\
    (ValueString (ID e) <> client.ID apiEnv
     \/ envVarMatches k (index configEnvs k) apiEnv = false).
Proof.
  unfold replaced. destruct (planEnvs !! k) as [d|].
  - destruct (api !! k) as [a|].
    + rewrite orb_true_iff, !negb_true_iff, String.eqb_neq. split.
      * intros Hor. split; [eauto|]. exists a. auto.
      * intros (_ & a' & [= <-] & Hor). exact Hor.
    + split; [discriminate|]. intros (_ & a' & [=] & _).
  - split; [discriminate|]. intros ([d [=]] & _).
Qed.

Lemma reconcile_operations_private (prefix : string)
    (planEnvs configEnvs stateEnvs : gmap string EnvironmentItem)
    (envsFromAPI : list client.EnvironmentVariable) (private private' : gmap string string) :
  operations (reconcile prefix planEnvs configEnvs stateEnvs envsFromAPI private')
  = operations (reconcile prefix planEnvs configEnvs stateEnvs envsFromAPI private).
Proof.
  pose proof (reconcile_toAdd prefix planEnvs configEnvs stateEnvs envsFromAPI private) as A1.
  pose proof (reconcile_toAdd prefix planEnvs configEnvs stateEnvs envsFromAPI private') as A2.
  pose proof (reconcile_toRemove prefix planEnvs configEnvs stateEnvs envsFromAPI private) as R1.
  pose proof (reconcile_toRemove prefix planEnvs configEnvs stateEnvs envsFromAPI private') as R2.
  pose proof (reconcile_unchanged prefix planEnvs configEnvs stateEnvs envsFromAPI private) as U1.
  pose proof (reconcile_unchanged prefix planEnvs configEnvs stateEnvs envsFromAPI private') as U2.
  destruct (operations (reconcile _ _ _ _ _ private')) as [a' r' u'].
  destruct (operations (reconcile _ _ _ _ _ private)) as [a r u].
  cbn [toAdd toRemove unchanged] in *.
  f_equal; apply map_eq; intros k.
  - by rewrite A1, A2.
  - by rewrite R1, R2.
  - by rewrite U1, U2.
Qed.

(** C1 (as amended).  For a name in the prior state and in the plan whose
    live entry is found: when the live entry's ID differs from the recorded
    one or [envVarMatches] rejects it against the declared entry, the prior
    entry is in [toRemove], the declared entry in [toAdd], and the name is
    not in [unchanged].  When no live entry is found the declared entry is
    in [toAdd], the prior entry stays in [unchanged], and nothing is put in
    [toRemove].  The plan does not depend on the private state: the stored
    digests play no part in it. *)
Theorem reconcile_replace (prefix : string)
    (planEnvs configEnvs stateEnvs : gmap string EnvironmentItem)
    (envsFromAPI : list client.EnvironmentVariable) (private : gmap string string)
    (key : string) (e c : EnvironmentItem) :
  stateEnvs !! key = Some e ->
  is_Some (planEnvs !! key) ->
  configEnvs !! key = Some c ->
  let api := envsFromAPIMapOf envsFromAPI in
  let p := operations (reconcile prefix planEnvs configEnvs stateEnvs envsFromAPI private) in
  (forall apiEnv,
      api !! key = Some apiEnv ->
      ValueString (ID e) <> client.ID apiEnv \/ envVarMatches key c apiEnv = false ->
      toRemove p !! key = Some e /\ toAdd p !! key = Some c
      /\ unchanged p !! key = None)
  /\ (api !! key = None ->
      toAdd p !! key = Some c /\ unchanged p !! key = Some e
      /\ toRemove p !! key = None)
  /\ (forall private',
        operations (reconcile prefix planEnvs configEnvs stateEnvs envsFromAPI private')
        = p).
Proof.
  intros Hs [d Hp] Hc api p. subst p.
  assert (index configEnvs key = c) as Hidx by (unfold index; by rewrite Hc).
  split; [|split].
  - intros apiEnv Ha Hor.
    assert (replaced planEnvs configEnvs api key e = true) as Hrep.
    { apply replaced_true. split; [eauto|]. exists apiEnv. by rewrite Hidx. }
    rewrite reconcile_toRemove, reconcile_toAdd, reconcile_unchanged.
    fold api. rewrite Hs, Hp, Ha, Hrep, orb_true_r, Hidx. auto.
  - intros Ha.
    rewrite reconcile_toRemove, reconcile_toAdd, reconcile_unchanged.
    fold api. rewrite Hs, Hp, Ha, Hidx.
    unfold dropped, replaced. rewrite Hp, Ha. auto.
  - intros private'. apply reconcile_operations_private.
Qed.

(** C2 (as amended).  No name is both in [toRemove] and in [unchanged]; the
    names in both [toAdd] and [toRemove] are the replaced ones; and a name
    is in both [toAdd] and [unchanged] exactly when it is in the prior
    state and in the plan and the API holds no entry of that name. *)
Theorem reconcile_overlaps (prefix : string)
    (planEnvs configEnvs stateEnvs : gmap string EnvironmentItem)
    (envsFromAPI : list client.EnvironmentVariable) (private : gmap string string) :
  let api := envsFromAPIMapOf envsFromAPI in
  let p := operations (reconcile prefix planEnvs configEnvs stateEnvs envsFromAPI private) in
  toRemove p ##ₘ unchanged p
  /\ (forall k,
        is_Some (toAdd p !! k) /\ is_Some (toRemove p !! k) <->
        exists e, stateEnvs !! k = Some e
                  /\ replaced planEnvs configEnvs api k e = true)
  /\ (forall k,
        is_Some (toAdd p !! k) /\ is_Some (unchanged p !! k) <->
        is_Some (stateEnvs !! k) /\ is_Some (planEnvs !! k) /\ api !! k = None).
Proof.
  intros api p. subst p. split; [|split].
  - apply map_disjoint_spec. intros k x y.
    rewrite reconcile_toRemove, reconcile_unchanged.
    destruct (stateEnvs !! k); [|discriminate].
    destruct (_ || _); discriminate.
  - intros k. rewrite reconcile_toAdd, reconcile_toRemove. fold api.
    unfold dropped.
    destruct (stateEnvs !! k) as [e|] eqn:Es.
    + destruct (replaced planEnvs configEnvs api k e) eqn:Er.
      * rewrite orb_true_r.
        destruct (proj1 (replaced_true _ _ _ _ _) Er) as ([d Hd] & a & Ha & _).
        rewrite Hd, Ha.
        split; intros _; [exists e; auto|split; eexists; reflexivity].
      * rewrite orb_false_r. split.
        -- intros [[x Hx] [y Hy]].
           destruct (planEnvs !! k); [|discriminate].
           destruct (api !! k); discriminate.
        -- intros (e' & [= <-] & Hr). congruence.
    + split.
      * intros [_ [y Hy]]. discriminate.
      * intros (e' & [=] & _).
  - intros k. rewrite reconcile_toAdd, reconcile_unchanged. fold api.
    unfold dropped.
    destruct (stateEnvs !! k) as [e|] eqn:Es.
    + destruct (planEnvs !! k) as [d|] eqn:Ep; cbn [orb].
      * destruct (api !! k) as [a|] eqn:Ea.
        -- split; [|intros (_ & _ & [=])].
           destruct (replaced planEnvs configEnvs api k e);
             intros [[x Hx] [y Hy]]; discriminate.
        -- assert (replaced planEnvs configEnvs api k e = false) as ->
             by (unfold replaced; by rewrite Ep, Ea).
           split; intros _;
             [split; [|split]; try reflexivity|split]; eexists; reflexivity.
      * split; [intros [[x [=]] _]|intros (_ & [x [=]] & _)].
    + split; [intros [_ [x [=]]]|intros ([x [=]] & _)].
Qed.

(** C3 (as amended).  When the plan and the prior state hold the same
    names: if every recorded variable has a live entry of its name with the
    recorded ID that [envVarMatches] accepts against the declared entry
    (same environments, readable, not of type [sensitive], and carrying
    the declared value), then [toAdd] and [toRemove] are empty and
    [unchanged] is the prior state; but a recorded variable whose live
    entry is of type [sensitive] or is not decrypted is replaced in every
    cycle, whether or not anything changed. *)
Theorem reconcile_no_change (prefix : string)
    (planEnvs configEnvs stateEnvs : gmap string EnvironmentItem)
    (envsFromAPI : list client.EnvironmentVariable) (private : gmap string string) :
  (forall k, is_Some (planEnvs !! k) <-> is_Some (stateEnvs !! k)) ->
  let api := envsFromAPIMapOf envsFromAPI in
  let p := operations (reconcile prefix planEnvs configEnvs stateEnvs envsFromAPI private) in
  ((forall k e,
       stateEnvs !! k = Some e ->
       exists apiEnv, api !! k = Some apiEnv
                      /\ ValueString (ID e) = client.ID apiEnv
                      /\ envVarMatches k (index configEnvs k) apiEnv = true) ->
   toAdd p = ∅ /\ toRemove p = ∅ /\ unchanged p = stateEnvs)
  /\ (forall k e apiEnv,
         stateEnvs !! k = Some e ->
         api !! k = Some apiEnv ->
         client.Type_ apiEnv = "sensitive" \/ client.Decrypted apiEnv = Some false ->
         toRemove p !! k = Some e /\ toAdd p !! k = Some (index configEnvs k)
         /\ unchanged p !! k = None).
Proof.
  intros Hdom api p. subst p. split.
  - intros Hlive.
    assert (forall k e, stateEnvs !! k = Some e ->
              dropped planEnvs k || replaced planEnvs configEnvs api k e = false)
      as Hkeep.
    { intros k e Hs. destruct (Hlive k e Hs) as (a & Ha & Hid & Hm).
      destruct (proj2 (Hdom k) (ex_intro _ e Hs)) as [d Hd].
      unfold dropped, replaced. rewrite Hd, Ha, Hm.
      apply String.eqb_eq in Hid. by rewrite Hid. }
    repeat split; apply map_eq; intros k.
    + rewrite reconcile_toAdd, lookup_empty. fold api.
      destruct (planEnvs !! k) as [d|] eqn:Hd; [|reflexivity].
      destruct (proj1 (Hdom k) (ex_intro _ d Hd)) as [e Hs].
      destruct (Hlive k e Hs) as (a & Ha & _). rewrite Ha, Hs.
      pose proof (Hkeep k e Hs) as Hk. apply orb_false_iff in Hk as [_ ->].
      reflexivity.
    + rewrite reconcile_toRemove, lookup_empty. fold api.
      destruct (stateEnvs !! k) as [e|] eqn:Hs; [|reflexivity].
      by rewrite (Hkeep k e Hs).
    + rewrite reconcile_unchanged. fold api.
      destruct (stateEnvs !! k) as [e|] eqn:Hs; [|reflexivity].
      by rewrite (Hkeep k e Hs).
  - intros k e a Hs Ha Hsens.
    destruct (proj2 (Hdom k) (ex_intro _ e Hs)) as [d Hd].
    assert (replaced planEnvs configEnvs api k e = true) as Hrep.
    { apply replaced_true. split; [eauto|]. exists a. split; [exact Ha|]. right.
      unfold envVarMatches. destruct (_ && _); [|reflexivity].
      destruct Hsens as [Ht|Hdec].
      - rewrite Ht. by destruct (client.Decrypted a) as [[]|].
      - by rewrite Hdec. }
    rewrite reconcile_toRemove, reconcile_toAdd, reconcile_unchanged. fold api.
    by rewrite Hs, Hd, Ha, Hrep, orb_true_r.
Qed.


(** ** [Update] as a whole *)

(** C8.  A name in the prior state that the plan no longer holds is in
    [toRemove], with its recorded entry, and in neither [toAdd] nor
    [unchanged]; computing the plan removes its digest from the private
    state, and whenever [Update] gets as far as the plan (the read of the
    API did not fail) the private state of its response holds no digest for
    that name. *)
Theorem removed_key_cleared (w : World) (plan state config : ProjectEnvironmentVariables)
    (private : gmap string string) (key : string) (e : EnvironmentItem) :
  environment state !! key = Some e ->
  environment plan !! key = None ->
  let privateKey := privatePrefix plan +:+ key in
  let got :=
    client.GetEnvironmentVariables w (ValueString (ProjectID state))
      (ValueString (TeamID state)) in
  let planned :=
    reconcile (privatePrefix plan) (environment plan) (environment config)
      (environment state) got.2.1
      (setHashes (privatePrefix plan) (environment config) private).1 in
  let p := operations planned in
  (toRemove p !! key = Some e /\ toAdd p !! key = None /\ unchanged p !! key = None)
  /\ planPrivate planned !! privateKey = None
  /\ GetKey (planPrivate planned) privateKey = ""
  /\ (got.2.2 = None ->
      Private (Update w plan state config private) !! privateKey = None).
Proof.
  intros Hs Hp privateKey got planned p.
  assert (planPrivate planned !! privateKey = None) as Hclear.
  { subst planned privateKey. apply reconcile_private_cleared; [eauto|exact Hp]. }
  split; [|split; [exact Hclear|split]].
  - subst p planned.
    rewrite reconcile_toRemove, reconcile_toAdd, reconcile_unchanged, Hs, Hp.
    unfold dropped. rewrite Hp. auto.
  - unfold GetKey. by rewrite Hclear.
  - intros Hok. unfold Update. fold got. rewrite Hok. cbn [client.NotFound].
    fold planned. by destruct (appliedResult _).
Qed.

(** C10.  [Update] writes the digest of every configured value to the
    private state before its first remote call: the trace begins with
    private-state writes only, among them the write for each configured
    name, and the read of the API comes after them.  Whatever happens next,
    also when the cycle fails, the private state of the response holds the
    new digest of every configured name that the plan holds too. *)
Theorem Update_hashes_first (w : World) (plan state config : ProjectEnvironmentVariables)
    (private : gmap string string) (key : string) (env : EnvironmentItem) :
  environment config !! key = Some env ->
  let privateKey := privatePrefix plan +:+ key in
  let digest := storedForm (Sum256 (ValueString (Value env))) in
  let r := Update w plan state config private in
  (exists pre post,
      trace r
      = pre ++ EvGetEnvironmentVariables (ValueString (ProjectID state))
                 (ValueString (TeamID state)) :: post
      /\ EvSetKey privateKey digest ∈ pre
      /\ Forall (fun ev => isRemoteCall ev = false) pre)
  /\ (is_Some (environment plan !! key) -> Private r !! privateKey = Some digest).
Proof.
  intros Hc privateKey digest r.
  set (hashed := setHashes (privatePrefix plan) (environment config) private).
  assert (EvSetKey privateKey digest ∈ hashed.2
          /\ Forall (fun ev => isRemoteCall ev = false) hashed.2) as [Hin Hpre].
  { subst hashed. rewrite setHashes_trace. split.
    - apply list_elem_of_fmap. exists (key, env). split; [reflexivity|].
      by apply elem_of_range.
    - apply Forall_fmap, Forall_forall. intros kv _. reflexivity. }
  assert (hashed.1 !! privateKey = Some digest) as Hset.
  { subst hashed privateKey. by rewrite setHashes_lookup, Hc. }
  subst r. unfold Update. fold hashed.
  set (got := client.GetEnvironmentVariables w _ _).
  destruct (client.NotFound got.2.2);
    [cbn [trace Private]; split; [exists hashed.2, []; auto|auto]|].
  destruct got.2.2 as [err|];
    [cbn [trace Private]; split; [exists hashed.2, []; auto|auto]|].
  set (planned := reconcile _ _ _ _ _ _).
  assert (is_Some (environment plan !! key) ->
          planPrivate planned !! privateKey = Some digest) as Hkept.
  { intros Hp. subst planned privateKey. by rewrite reconcile_private_kept. }
  destruct (appliedResult _); cbn [trace Private];
    (split; [|exact Hkept]);
    exists hashed.2; eexists; (split; [|split; [exact Hin|exact Hpre]]);
    rewrite <- app_assoc; reflexivity.
Qed.

(** ** The drift check at plan time *)

(** C4.  [suppressWriteOnlyEnvVarUpdates] leaves the value of a configured
    variable out of [RequiresReplace] exactly when the private state holds,
    under the key of the project, team and name, a non-empty entry that is
    the hexadecimal digest of the configured value once the quote
    characters around it are trimmed; with no entry under that key the
    value is in [RequiresReplace]; and when the entry is the digest of some
    value as [Create] and [Update] store it, the value is left out exactly
    when that digest is the digest of the configured value. *)
Theorem drift_decision (config : ProjectEnvironmentVariables)
    (private : gmap string string) (key : string) (env : EnvironmentItem) :
  environment config !! key = Some env ->
  let privateKey := privatePrefix config +:+ key in
  let hash := Sum256 (ValueString (Value env)) in
  let changed := valuePath key ∈ suppressWriteOnlyEnvVarUpdates config private in
  (~ changed <->
   exists stored, private !! privateKey = Some stored /\ stored <> ""
                  /\ Trim stored quote = sprintf_x hash)
  /\ (private !! privateKey = None -> changed)
  /\ (forall v0,
        private !! privateKey = Some (storedForm (Sum256 v0)) ->
        (~ changed <-> Sum256 v0 = hash)).
Proof.
  intros Hkey privateKey hash changed.
  assert (~ changed <-> storedHashMatches private privateKey hash = true) as Hiff.
  { subst changed. rewrite (requiresReplace_iff config private key env Hkey).
    fold privateKey hash. by destruct (storedHashMatches _ _ _). }
  split; [|split].
  - by rewrite Hiff, storedHashMatches_true.
  - intros Hnone. subst changed.
    rewrite (requiresReplace_iff config private key env Hkey).
    unfold storedHashMatches, GetKey. fold privateKey. by rewrite Hnone.
  - intros v0 Hv0. rewrite Hiff, storedHashMatches_true. split.
    + intros (stored & Hs & _ & Ht). rewrite Hv0 in Hs. injection Hs as <-.
      rewrite Trim_storedForm in Ht. by apply sprintf_x_inj.
    + intros Heq. exists (storedForm (Sum256 v0)).
      split; [exact Hv0|]. split; [discriminate|].
      by rewrite Trim_storedForm, Heq.
Qed.

End Properties.

(** ** Failures of the remote calls *)

Section Failures.
Context {World : Type} `{!client.Client World} `{!Platform}.

(** In [Update] a "not found" answer to a deletion is skipped. *)
Lemma removeAll_skips_not_found (w : World) (projectID teamID msg : string)
    (kv : string * EnvironmentItem) (l : list (string * EnvironmentItem)) :
  let r := client.DeleteEnvironmentVariable w projectID teamID (ValueString (ID kv.2)) in
  r.2 = Some (client.ErrNotFound msg) ->
  removeAll w projectID teamID (kv :: l)
  = let rest := removeAll r.1 projectID teamID l in
    (rest.1.1,
     EvDeleteEnvironmentVariable projectID teamID (ValueString (ID kv.2)) :: rest.1.2,
     rest.2).
Proof. cbn zeta. intros E. cbn [removeAll]. by rewrite E. Qed.

(** In [Update] any other failure of a deletion ends the loop. *)
Lemma removeAll_stops_on_error (w : World) (projectID teamID msg : string)
    (kv : string * EnvironmentItem) (l : list (string * EnvironmentItem)) :
  let r := client.DeleteEnvironmentVariable w projectID teamID (ValueString (ID kv.2)) in
  r.2 = Some (client.ErrOther msg) ->
  removeAll w projectID teamID (kv :: l)
  = (r.1, [EvDeleteEnvironmentVariable projectID teamID (ValueString (ID kv.2))],
     Some (removalFailed kv.1 kv.2 (client.ErrOther msg))).
Proof. cbn zeta. intros E. cbn [removeAll]. by rewrite E. Qed.

(** In [Delete] every failure of a deletion ends the loop, "not found"
    included. *)
Lemma deleteAll_stops_on_any_error (w : World) (projectID teamID : string)
    (err : client.error) (kv : string * EnvironmentItem)
    (l : list (string * EnvironmentItem)) :
  let r := client.DeleteEnvironmentVariable w projectID teamID (ValueString (ID kv.2)) in
  r.2 = Some err ->
  deleteAll w projectID teamID (kv :: l)
  = (r.1, [EvDeleteEnvironmentVariable projectID teamID (ValueString (ID kv.2))],
     Some (removalFailed kv.1 kv.2 err)).
Proof. cbn zeta. intros E. cbn [deleteAll]. by rewrite E. Qed.

(** In [Update] a failed batched create leaves the recorded state as it
    was. *)
Lemma Update_failed_create (w : World) (plan state config : ProjectEnvironmentVariables)
    (private : gmap string string) (d : Diagnostic) :
  Diagnostics (Update w plan state config private) = [d] ->
  State (Update w plan state config private) = StateUntouched.
Proof.
  unfold Update.
  destruct (client.NotFound _); [discriminate|].
  destruct (client.GetEnvironmentVariables _ _ _).2.2; [reflexivity|].
  destruct (appliedResult _); [reflexivity|discriminate].
Qed.

(** In [Create] a failed batched create is reported, and the function
    still writes the digests and sets a recorded state. *)
Lemma Create_failed_create (w : World) (plan : ProjectEnvironmentVariables)
    (private : gmap string string) (err : client.error) :
  let found :=
    client.GetProject w (ValueString (ProjectID plan)) (ValueString (TeamID plan)) in
  let request :=
    toCreateEnvironmentVariablesRequest (environment plan) (ProjectID plan)
      (TeamID plan) in
  let created := client.CreateEnvironmentVariables found.1 request in
  client.NotFound found.2 = false ->
  created.2.2 = Some err ->
  let r := Create w plan private in
  Diagnostics r <> []
  /\ State r = StateSet (convertResponseToProjectEnvironmentVariables created.2.1 plan ∅)
  /\ forall key env,
       environment plan !! key = Some env ->
       Private r !! (privatePrefix plan +:+ key)
       = Some (storedForm (Sum256 (ValueString (Value env)))).
Proof.
  cbn zeta. intros Hfound Herr. unfold Create. rewrite Hfound, Herr.
  cbn [Diagnostics State Private]. split; [discriminate|]. split; [reflexivity|].
  intros key env Hk. by rewrite setHashes_lookup, Hk.
Qed.

End Failures.

(** ** Worked cases *)

(** C6 (the code departs from it).  [Delete] on a prior state with [A]
    (ID [r1]) and [B] (ID [r2]) against a remote system that holds only [r2]:
    the deletion of [r1] is answered "not found", [Delete] reports it as an
    error and stops, and [r2] is never deleted.  [Update] with an empty plan
    on the same inputs skips the "not found" answer, deletes [r2] and
    reports nothing. *)
Theorem Delete_not_found_is_fatal :
  let state : gmap string EnvironmentItem :=
    {["A" := item "r1" StringNull false; "B" := item "r2" StringNull false]} in
  let w := remoteOf [liveEntry "B" "r2" "y" "encrypted"] in
  let deleted := Delete w (resourceOf state) ∅ in
  let updated := Update w (resourceOf ∅) (resourceOf state) (resourceOf ∅) ∅ in
  Diagnostics deleted
  = [{| Summary := "Error updating Project Environment Variables";
        Detail := "Could not remove environment variable A (r1), unexpected error: env var not found" |}]
  /\ trace deleted = [EvDeleteEnvironmentVariable "prj" "team" "r1"]
  /\ inmemory.live (world deleted) = [liveEntry "B" "r2" "y" "encrypted"]
  /\ Diagnostics updated = []
  /\ List.filter isRemoteCall (trace updated)
     = [EvGetEnvironmentVariables "prj" "team";
        EvDeleteEnvironmentVariable "prj" "team" "r1";
        EvDeleteEnvironmentVariable "prj" "team" "r2"]
  /\ inmemory.live (world updated) = [].
Proof. vm_compute. repeat split; reflexivity. Qed.

(** C7 (the code departs from it).  [Create] of one variable [A] against a
    remote system whose batched create fails: the error is reported, and yet
    a recorded state (with no variable) is set and the digest of the value
    of [A] is written to the private state. *)
Theorem Create_failure_sets_state :
  let w := {| inmemory.live := []; inmemory.deleteFailure := None;
              inmemory.createFailure := Some (client.ErrOther "boom") |} in
  let plan := resourceOf {["A" := item "" (StringValue "x") false]} in
  let r := Create w plan ∅ in
  Diagnostics r
  = [{| Summary := "Error creating project environment variables";
        Detail := "Could not create project environment variables, unexpected error: boom" |}]
  /\ State r = StateSet (resourceOf ∅)
  /\ Private r !! "vercel_env_prj_team_A" = Some (storedForm (sha256.Sum256 "x"))
  /\ inmemory.live (world r) = [].
Proof. vm_compute. repeat split; reflexivity. Qed.

(** C1 (counterexample).  Variable [A] is recorded with ID [r1] and still
    declared.  First, the API holds no entry named [A]: the plan keeps the
    recorded entry in [unchanged] and puts nothing in [toRemove].  Second,
    the API holds a matching readable entry and the private state holds the
    digest of another value, so that the drift check flags [A]: [Update]
    makes no deletion and no creation and records [A] unchanged. *)
Lemma reconcile_replace_counterexample :
  let recorded := item "r1" StringNull false in
  let declared := item "" (StringValue "x") false in
  let planEnvs : gmap string EnvironmentItem := {["A" := recorded]} in
  let configEnvs : gmap string EnvironmentItem := {["A" := declared]} in
  let stateEnvs : gmap string EnvironmentItem := {["A" := recorded]} in
  let p := operations (reconcile "vercel_env_prj_team_" planEnvs configEnvs stateEnvs [] ∅) in
  let private : gmap string string :=
    {["vercel_env_prj_team_A" := storedForm (sha256.Sum256 "old")]} in
  let r := Update (remoteOf [liveEntry "A" "r1" "x" "encrypted"])
             (resourceOf planEnvs) (resourceOf stateEnvs) (resourceOf configEnvs) private in
  (envsFromAPIMapOf [] !! "A" = None
   /\ toRemove p !! "A" = None /\ unchanged p !! "A" = Some recorded)
  /\ (valuePath "A" ∈ suppressWriteOnlyEnvVarUpdates (resourceOf configEnvs) private
      /\ List.filter isRemoteCall (trace r) = [EvGetEnvironmentVariables "prj" "team"]
      /\ State r = StateSet (resourceOf stateEnvs)).
Proof.
  cbn zeta. split; [vm_compute; repeat split; reflexivity|].
  split; [|vm_compute; split; reflexivity].
  vm_compute. apply list_elem_of_here.
Qed.

(** C1 (witness).  [A] is recorded with ID [r1]; the API holds it under ID
    [r2]. *)
Lemma reconcile_replace_witness :
  let recorded := item "r1" StringNull false in
  let declared := item "" (StringValue "x") false in
  let planEnvs : gmap string EnvironmentItem := {["A" := recorded]} in
  let configEnvs : gmap string EnvironmentItem := {["A" := declared]} in
  let stateEnvs : gmap string EnvironmentItem := {["A" := recorded]} in
  let envsFromAPI := [liveEntry "A" "r2" "x" "encrypted"] in
  let p := operations (reconcile "vercel_env_prj_team_" planEnvs configEnvs stateEnvs
                         envsFromAPI ∅) in
  stateEnvs !! "A" = Some recorded /\ is_Some (planEnvs !! "A")
  /\ configEnvs !! "A" = Some declared
  /\ toRemove p !! "A" = Some recorded /\ toAdd p !! "A" = Some declared
  /\ unchanged p !! "A" = None.
Proof.
  cbn zeta.
  assert ((({["A" := item "r1" StringNull false]} : gmap string EnvironmentItem) !! "A")
          = Some (item "r1" StringNull false)) as Hrecorded
    by (vm_compute; reflexivity).
  assert ((({["A" := item "" (StringValue "x") false]} : gmap string EnvironmentItem)
             !! "A") = Some (item "" (StringValue "x") false)) as Hdeclared
    by (vm_compute; reflexivity).
  split; [exact Hrecorded|]. split; [eexists; exact Hrecorded|].
  split; [exact Hdeclared|].
  destruct (reconcile_replace "vercel_env_prj_team_"
              {["A" := item "r1" StringNull false]}
              {["A" := item "" (StringValue "x") false]}
              {["A" := item "r1" StringNull false]}
              [liveEntry "A" "r2" "x" "encrypted"] ∅ "A"
              (item "r1" StringNull false) (item "" (StringValue "x") false)
              Hrecorded (ex_intro _ _ Hrecorded) Hdeclared) as (Hlive & _ & _).
  apply (Hlive (liveEntry "A" "r2" "x" "encrypted")).
  - vm_compute. reflexivity.
  - left. discriminate.
Defined.

(** C2 (counterexample).  [A] is recorded and declared and the API holds no
    entry of that name: [A] is in [toAdd] and in [unchanged]. *)
Lemma reconcile_overlaps_counterexample :
  let recorded := item "r1" StringNull false in
  let declared := item "" (StringValue "x") false in
  let p := operations (reconcile "vercel_env_prj_team_" {["A" := recorded]}
                         {["A" := declared]} {["A" := recorded]} [] ∅) in
  toAdd p !! "A" = Some declared /\ unchanged p !! "A" = Some recorded
  /\ ~ toAdd p ##ₘ unchanged p.
Proof.
  cbn zeta. split; [vm_compute; reflexivity|]. split; [vm_compute; reflexivity|].
  intros Hdisj.
  apply (proj1 (map_disjoint_spec _ _) Hdisj "A"
           (item "" (StringValue "x") false) (item "r1" StringNull false));
    vm_compute; reflexivity.
Qed.

(** C3 (counterexample).  The sensitive variable [A] is declared as it is
    recorded, and the API holds it under the recorded ID with the same
    environments: it is replaced all the same. *)
Lemma reconcile_no_change_counterexample :
  let recorded := item "r1" StringNull true in
  let declared := item "" (StringValue "x") true in
  let planEnvs : gmap string EnvironmentItem := {["A" := recorded]} in
  let stateEnvs : gmap string EnvironmentItem := {["A" := recorded]} in
  let p := operations (reconcile "vercel_env_prj_team_" planEnvs {["A" := declared]}
                         stateEnvs [liveEntry "A" "r1" "" "sensitive"] ∅) in
  planEnvs = stateEnvs
  /\ toRemove p !! "A" = Some recorded /\ toAdd p !! "A" = Some declared
  /\ unchanged p !! "A" = None /\ unchanged p <> stateEnvs.
Proof.
  cbn zeta. repeat split; try (vm_compute; reflexivity).
  intros E. apply (f_equal (fun m => m !! "A")) in E. vm_compute in E. discriminate.
Qed.

(** C3 (witness).  Two readable variables, declared as recorded and held by
    the API with the recorded IDs and the declared values. *)
Lemma reconcile_no_change_witness :
  let planEnvs : gmap string EnvironmentItem :=
    {["A" := item "r1" StringNull false; "B" := item "r2" StringNull false]} in
  let configEnvs : gmap string EnvironmentItem :=
    {["A" := item "" (StringValue "x") false; "B" := item "" (StringValue "y") false]} in
  let envsFromAPI :=
    [liveEntry "A" "r1" "x" "encrypted"; liveEntry "B" "r2" "y" "encrypted"] in
  let p := operations (reconcile "vercel_env_prj_team_" planEnvs configEnvs planEnvs
                         envsFromAPI ∅) in
  (forall k, is_Some (planEnvs !! k) <-> is_Some (planEnvs !! k))
  /\ toAdd p = ∅ /\ toRemove p = ∅ /\ unchanged p = planEnvs.
Proof.
  cbn zeta. split; [intros k; reflexivity|].
  apply (reconcile_no_change "vercel_env_prj_team_"
           {["A" := item "r1" StringNull false; "B" := item "r2" StringNull false]}
           {["A" := item "" (StringValue "x") false;
             "B" := item "" (StringValue "y") false]}
           {["A" := item "r1" StringNull false; "B" := item "r2" StringNull false]}
           [liveEntry "A" "r1" "x" "encrypted"; liveEntry "B" "r2" "y" "encrypted"] ∅
           (fun k => iff_refl _)).
  intros k e Hk.
  apply lookup_insert_Some in Hk as [[<- <-]|[_ Hk]].
  - exists (liveEntry "A" "r1" "x" "encrypted").
    repeat split; vm_compute; reflexivity.
  - apply lookup_singleton_Some in Hk as [<- <-].
    exists (liveEntry "B" "r2" "y" "encrypted").
    repeat split; vm_compute; reflexivity.
Defined.

(** C8 (witness).  [A] is recorded with a stored digest and no longer
    planned. *)
Lemma removed_key_cleared_witness :
  let recorded := item "r1" StringNull false in
  let state := resourceOf {["A" := recorded]} in
  let private : gmap string string :=
    {["vercel_env_prj_team_A" := storedForm (sha256.Sum256 "x")]} in
  let w := remoteOf [liveEntry "A" "r1" "x" "encrypted"] in
  let r := Update w (resourceOf ∅) state (resourceOf ∅) private in
  environment state !! "A" = Some recorded
  /\ environment (resourceOf ∅) !! "A" = None
  /\ private !! "vercel_env_prj_team_A" = Some (storedForm (sha256.Sum256 "x"))
  /\ Private r !! "vercel_env_prj_team_A" = None.
Proof.
  cbn zeta.
  assert (environment (resourceOf {["A" := item "r1" StringNull false]}) !! "A"
          = Some (item "r1" StringNull false)) as Hrecorded
    by (vm_compute; reflexivity).
  assert (environment (resourceOf ∅) !! "A" = None) as Hplanned
    by (vm_compute; reflexivity).
  split; [exact Hrecorded|]. split; [exact Hplanned|].
  split; [vm_compute; reflexivity|].
  destruct (removed_key_cleared (remoteOf [liveEntry "A" "r1" "x" "encrypted"])
              (resourceOf ∅) (resourceOf {["A" := item "r1" StringNull false]})
              (resourceOf ∅)
              {["vercel_env_prj_team_A" := storedForm (sha256.Sum256 "x")]}
              "A" (item "r1" StringNull false) Hrecorded Hplanned)
    as (_ & _ & _ & Hupdate).
  apply Hupdate. vm_compute. reflexivity.
Defined.



(** C10 (witness).  A cycle that fails: [A] is new, the batched create is
    refused, and the private state of the response holds the digest of the
    value of [A] all the same. *)
Lemma Update_hashes_first_witness :
  let w := {| inmemory.live := []; inmemory.deleteFailure := None;
              inmemory.createFailure := Some (client.ErrOther "boom") |} in
  let plan := resourceOf {["A" := item "" StringNull false]} in
  let config := resourceOf {["A" := item "" (StringValue "x") false]} in
  let declared := item "" (StringValue "x") false in
  let r := Update w plan (resourceOf ∅) config ∅ in
  environment config !! "A" = Some declared
  /\ is_Some (environment plan !! "A")
  /\ Diagnostics r <> [] /\ State r = StateUntouched
  /\ Private r !! (privatePrefix plan +:+ "A")
     = Some (storedForm (Sum256 (ValueString (Value declared)))).
Proof.
  cbn zeta.
  assert (environment (resourceOf {["A" := item "" (StringValue "x") false]}) !! "A"
          = Some (item "" (StringValue "x") false)) as Hdeclared
    by (vm_compute; reflexivity).
  assert (is_Some (environment (resourceOf {["A" := item "" StringNull false]}) !! "A"))
    as Hplanned by (eexists; vm_compute; reflexivity).
  split; [exact Hdeclared|]. split; [exact Hplanned|].
  split; [vm_compute; discriminate|]. split; [vm_compute; reflexivity|].
  destruct (Update_hashes_first
              {| inmemory.live := []; inmemory.deleteFailure := None;
                 inmemory.createFailure := Some (client.ErrOther "boom") |}
              (resourceOf {["A" := item "" StringNull false]}) (resourceOf ∅)
              (resourceOf {["A" := item "" (StringValue "x") false]}) ∅ "A"
              (item "" (StringValue "x") false) Hdeclared) as (_ & Hprivate).
  exact (Hprivate Hplanned).
Defined.

(** C4 (witness).  The private state holds the digest of [x] for [A], as
    [Create] stored it, and [A] is configured with the value [x]: the value
    is not marked for replacement. *)
Lemma drift_decision_witness :
  let config := resourceOf {["A" := item "" (StringValue "x") false]} in
  let private : gmap string string :=
    {["vercel_env_prj_team_A" := storedForm (sha256.Sum256 "x")]} in
  environment config !! "A" = Some (item "" (StringValue "x") false)
  /\ ~ valuePath "A" ∈ suppressWriteOnlyEnvVarUpdates config private
  /\ valuePath "A" ∈ suppressWriteOnlyEnvVarUpdates config ∅.
Proof.
  cbn zeta.
  assert (environment (resourceOf {["A" := item "" (StringValue "x") false]}) !! "A"
          = Some (item "" (StringValue "x") false)) as Hdeclared
    by (vm_compute; reflexivity).
  split; [exact Hdeclared|]. split.
  - destruct (drift_decision (resourceOf {["A" := item "" (StringValue "x") false]})
                {["vercel_env_prj_team_A" := storedForm (sha256.Sum256 "x")]} "A"
                (item "" (StringValue "x") false) Hdeclared) as (_ & _ & Hstored).
    apply (Hstored "x"); vm_compute; reflexivity.
  - destruct (drift_decision (resourceOf {["A" := item "" (StringValue "x") false]})
                ∅ "A" (item "" (StringValue "x") false) Hdeclared) as (_ & Hnone & _).
    apply Hnone. vm_compute. reflexivity.
Defined.

(** ** The scenarios of the specification, run on the in-memory remote *)

(** A first declaration: [A] is added, nothing else. *)
Example scenario_first_declaration :
  let declared := item "" (StringValue "x") false in
  let p := operations (reconcile "vercel_env_prj_team_" {["A" := item "" StringNull false]}
                         {["A" := declared]} ∅ [] ∅) in
  toAdd p = {["A" := declared]} /\ toRemove p = ∅ /\ unchanged p = ∅.
Proof. vm_compute. repeat split; reflexivity. Qed.

(** Nothing changed and the live entry is readable: [A] is kept with its
    recorded ID. *)
Example scenario_unchanged :
  let recorded := item "r1" StringNull false in
  let p := operations (reconcile "vercel_env_prj_team_" {["A" := recorded]}
                         {["A" := item "" (StringValue "x") false]} {["A" := recorded]}
                         [liveEntry "A" "r1" "x" "encrypted"] ∅) in
  toAdd p = ∅ /\ toRemove p = ∅ /\ unchanged p = {["A" := recorded]}.
Proof. vm_compute. repeat split; reflexivity. Qed.

(** The declared value differs from the readable live value: [A] is
    replaced, and [Update] deletes, pauses and creates in that order. *)
Example scenario_replaced :
  let recorded := item "r1" StringNull false in
  let declared := item "" (StringValue "y") false in
  let planEnvs : gmap string EnvironmentItem := {["A" := recorded]} in
  let w := remoteOf [liveEntry "A" "r1" "x" "encrypted"] in
  let p := operations (reconcile "vercel_env_prj_team_" planEnvs {["A" := declared]}
                         planEnvs [liveEntry "A" "r1" "x" "encrypted"] ∅) in
  let r := Update w (resourceOf planEnvs) (resourceOf planEnvs)
             (resourceOf {["A" := declared]}) ∅ in
  toAdd p = {["A" := declared]} /\ toRemove p = {["A" := recorded]} /\ unchanged p = ∅
  /\ List.filter isRemoteCall (trace r)
     = [EvGetEnvironmentVariables "prj" "team";
        EvDeleteEnvironmentVariable "prj" "team" "r1";
        EvCreateEnvironmentVariables
          (toCreateEnvironmentVariablesRequest {["A" := declared]}
             (StringValue "prj") (StringValue "team"))]
  /\ EvSleep 5000000000 ∈ trace r
  /\ Diagnostics r = [].
Proof.
  vm_compute. repeat split; try reflexivity.
  do 3 apply list_elem_of_further. apply list_elem_of_here.
Qed.

(** A pure addition: no pause before the create. *)
Example scenario_added_without_pause :
  let declared := item "" (StringValue "x") false in
  let r := Update (remoteOf []) (resourceOf {["A" := item "" StringNull false]})
             (resourceOf ∅) (resourceOf {["A" := declared]}) ∅ in
  trace r
  = [EvSetKey "vercel_env_prj_team_A" (storedForm (sha256.Sum256 "x"));
     EvGetEnvironmentVariables "prj" "team";
     EvCreateEnvironmentVariables
       (toCreateEnvironmentVariablesRequest {["A" := declared]}
          (StringValue "prj") (StringValue "team"))]
  /\ State r
     = StateSet (resourceOf {["A" := {| Target := SetValue ["production"];
                                        CustomEnvironmentIDs := SetNull;
                                        GitBranch := StringNull;
                                        Value := StringValue "x";
                                        ID := StringValue "env_A";
                                        Sensitive := BoolValue false;
                                        Comment := StringValue "" |}]}).
Proof. vm_compute. split; reflexivity. Qed.

(** The digest function of the concrete platform on a known input. *)
Example sha256_abc :
  sprintf_x (sha256.Sum256 "abc")
  = "ba7816bf8f01cfea414140de5dae2223b00361a396177a9cb410ff61f20015ad".
Proof. vm_compute. reflexivity. Qed.

(** * Further properties of the resource *)

Section MoreProperties.
Context {World : Type} `{!client.Client World} `{!TeamClient World} `{!Platform}.

(** ** The plan as a whole *)

(** X1.  [toRemove] and [unchanged] together are the prior state, entry for
    entry; [toAdd] holds planned names only, each with the entry the
    configuration has under that name (the zero entry when it has none). *)
Theorem reconcile_covers_state (prefix : string)
    (planEnvs configEnvs stateEnvs : gmap string EnvironmentItem)
    (envsFromAPI : list client.EnvironmentVariable) (private : gmap string string) :
  let p := operations (reconcile prefix planEnvs configEnvs stateEnvs envsFromAPI private) in
  toRemove p ∪ unchanged p = stateEnvs
  /\ (forall k c, toAdd p !! k = Some c ->
        is_Some (planEnvs !! k) /\ c = index configEnvs k).
Proof.
  cbn zeta. split.
  - apply map_eq. intros k.
    rewrite lookup_union, reconcile_toRemove, reconcile_unchanged.
    destruct (stateEnvs !! k); [|reflexivity]. by destruct (_ || _).
  - intros k c. rewrite reconcile_toAdd.
    destruct (planEnvs !! k) as [d|]; [|discriminate]. intros Hc. split; [eauto|].
    destruct (envsFromAPIMapOf envsFromAPI !! k); [|congruence].
    destruct (stateEnvs !! k); [|discriminate].
    destruct (replaced _ _ _ _ _); congruence.
Qed.

(** ** The live entry that is compared *)

Lemma envsFromAPIMap_fold_other (l : list client.EnvironmentVariable)
    (m : gmap string client.EnvironmentVariable) (k : string) :
  (forall a, a ∈ l -> client.Key a <> k) ->
  foldl (fun m e => <[client.Key e := e]> m) m l !! k = m !! k.
Proof.
  revert m; induction l as [|e l IH]; intros m Hl; [reflexivity|].
  cbn [foldl]. rewrite IH.
  - apply lookup_insert_ne, Hl, list_elem_of_here.
  - intros a Ha. apply Hl, list_elem_of_further, Ha.
Qed.

(** X2.  Of several entries of the API with one name, the last in the list
    is the one [Update] compares the recorded variable with. *)
Theorem envsFromAPIMapOf_last (l1 l2 : list client.EnvironmentVariable)
    (e : client.EnvironmentVariable) :
  (forall a, a ∈ l2 -> client.Key a <> client.Key e) ->
  envsFromAPIMapOf (l1 ++ e :: l2) !! client.Key e = Some e.
Proof.
  intros Hl2. unfold envsFromAPIMapOf. rewrite foldl_app. cbn [foldl].
  rewrite envsFromAPIMap_fold_other by exact Hl2. apply lookup_insert_eq.
Qed.

(** ** The batched create request *)

Lemma snoc_fold {A B : Type} (f : A -> B) (l : list A) (acc : list B) :
  foldl (fun acc x => acc ++ [f x]) acc l = acc ++ (f <$> l).
Proof.
  revert acc; induction l as [|x l IH]; intros acc; cbn [foldl].
  - by rewrite app_nil_r.
  - rewrite IH, fmap_cons, <- app_assoc. reflexivity.
Qed.

Lemma toCreateEnvironmentVariablesRequest_entries (e : gmap string EnvironmentItem)
    (projectID teamID : tfString) :
  client.EnvironmentVariables (toCreateEnvironmentVariablesRequest e projectID teamID)
  = requestOf <$> range e.
Proof.
  unfold toCreateEnvironmentVariablesRequest. cbn [client.EnvironmentVariables].
  exact (snoc_fold requestOf (range e) []).
Qed.

(** X3.  The request of the batched create holds one entry for each variable
    of the map and no other: up to order, the entries built from the
    variables; their names are pairwise distinct and as many as the map has
    variables; the type is [sensitive] for a variable whose flag is known
    and true, and [encrypted] for every other. *)
Theorem toCreateEnvironmentVariablesRequest_complete (e : gmap string EnvironmentItem)
    (projectID teamID : tfString) :
  let r := toCreateEnvironmentVariablesRequest e projectID teamID in
  client.EnvironmentVariables r ≡ₚ requestOf <$> map_to_list e
  /\ NoDup (client.reqKey <$> client.EnvironmentVariables r)
  /\ length (client.EnvironmentVariables r) = size e
  /\ (forall q, q ∈ client.EnvironmentVariables r ->
        exists env, e !! client.reqKey q = Some env
                    /\ client.reqValue q = ValueString (Value env)
                    /\ (client.reqType q = "sensitive" <-> Sensitive env = BoolValue true)
                    /\ (client.reqType q = "encrypted" <-> Sensitive env <> BoolValue true))
  /\ client.reqProjectID r = ValueString projectID
  /\ client.reqTeamID r = ValueString teamID.
Proof.
  cbn zeta. rewrite toCreateEnvironmentVariablesRequest_entries.
  split; [by rewrite (range_perm _ e)|].
  split; [|split; [|split; [|split; reflexivity]]].
  - rewrite <- list_fmap_compose.
    replace (client.reqKey ∘ requestOf) with (@fst string EnvironmentItem) by reflexivity.
    apply NoDup_fst_range.
  - rewrite length_fmap, (range_perm _ e). apply length_map_to_list.
  - intros q Hq. apply list_elem_of_fmap in Hq as ([k env] & -> & Hin).
    apply elem_of_range in Hin. exists env. cbn [requestOf client.reqKey
      client.reqValue client.reqType fst snd].
    split; [exact Hin|]. split; [reflexivity|].
    destruct (Sensitive env) as [| |[]]; cbn [ValueBool];
      split; split; try discriminate; try reflexivity; try congruence.
Qed.

(** ** The recorded state built from a response *)

Lemma find_by_key (q1 q2 : EnvironmentItem -> bool) (k : string)
    (l : list (string * EnvironmentItem)) :
  NoDup l.*1 ->
  List.find (fun kv => String.eqb kv.1 k && q1 kv.2 && q2 kv.2) l
  = match (list_to_map l : gmap string EnvironmentItem) !! k with
    | Some p => if q1 p && q2 p then Some (k, p) else None
    | None => None
    end.
Proof.
  induction l as [|[k' p'] l IH]; intros Hnd.
  - by rewrite list_to_map_nil, lookup_empty.
  - rewrite fmap_cons in Hnd. apply NoDup_cons in Hnd as [Hk' Hnd].
    cbn [List.find fst snd]. rewrite list_to_map_cons, lookup_insert. cbn [fst snd].
    destruct (String.eqb_spec k' k) as [-> |Hne].
    + rewrite decide_True by reflexivity. cbn [andb].
      destruct (q1 p' && q2 p'); [reflexivity|].
      rewrite (IH Hnd), (not_elem_of_list_to_map_1 _ _ Hk'). reflexivity.
    + rewrite decide_False by exact Hne. cbn [andb]. apply IH, Hnd.
Qed.

(** The value recorded for a response entry, without the search: it is
    decided by the planned variable of the same name alone. *)
Lemma recordedValue_lookup (environment : gmap string EnvironmentItem)
    (e : client.EnvironmentVariable) :
  recordedValue environment e
  = let value :=
      if String.eqb (client.Type_ e) "sensitive" then StringNull
      else StringValue (client.Value e) in
    if match client.Decrypted e with Some false => true | _ => false end
       || String.eqb (client.Type_ e) "sensitive"
    then
      match environment !! client.Key e with
      | Some p =>
          if isSameStringSet (ElementsAs (Target p)) (client.Target e)
             && isSameStringSet (ElementsAs (CustomEnvironmentIDs p))
                  (client.CustomEnvironmentIDs e)
          then Value p else value
      | None => value
      end
    else value.
Proof.
  unfold recordedValue. cbn zeta. destruct (_ || _); [|reflexivity].
  rewrite (find_by_key
    (fun p => isSameStringSet (ElementsAs (Target p)) (client.Target e))
    (fun p => isSameStringSet (ElementsAs (CustomEnvironmentIDs p))
                (client.CustomEnvironmentIDs e))
    (client.Key e) (range environment) (NoDup_fst_range environment)).
  rewrite list_to_map_range.
  destruct (environment !! client.Key e) as [p|]; [|reflexivity].
  by destruct (_ && _).
Qed.

(** X4.  A value the API returned for an entry of type [sensitive] is never
    written to the recorded state: what is recorded for such an entry is
    null, or the value the plan holds for the variable of the same name. *)
Theorem sensitive_value_not_recorded (environment : gmap string EnvironmentItem)
    (e : client.EnvironmentVariable) :
  client.Type_ e = "sensitive" ->
  Value (responseItem environment e) = StringNull
  \/ exists p, environment !! client.Key e = Some p
               /\ Value (responseItem environment e) = Value p.
Proof.
  intros Ht. cbn [responseItem Value]. rewrite recordedValue_lookup. cbn zeta.
  rewrite Ht. cbn [String.eqb Ascii.eqb Bool.eqb]. rewrite orb_true_r.
  destruct (environment !! client.Key e) as [p|]; [|by left].
  destruct (_ && _); [right; eauto|by left].
Qed.

(** X5.  A readable entry (decrypted, or without the flag, and not of type
    [sensitive]) is recorded with the value, ID, comment and type the API
    returned, whatever the plan holds. *)
Theorem readable_value_recorded (environment : gmap string EnvironmentItem)
    (e : client.EnvironmentVariable) :
  client.Decrypted e <> Some false ->
  client.Type_ e <> "sensitive" ->
  Value (responseItem environment e) = StringValue (client.Value e)
  /\ ID (responseItem environment e) = StringValue (client.ID e)
  /\ Sensitive (responseItem environment e) = BoolValue false
  /\ Comment (responseItem environment e) = StringValue (client.Comment e).
Proof.
  intros Hd Ht. apply String.eqb_neq in Ht.
  cbn [responseItem Value ID Sensitive Comment]. rewrite recordedValue_lookup.
  cbn zeta. rewrite Ht.
  destruct (client.Decrypted e) as [[]|]; try congruence; auto.
Qed.

Lemma response_fold_ids (environment : gmap string EnvironmentItem)
    (l : list client.EnvironmentVariable)
    (acc : gmap string EnvironmentItem * gset string) :
  (foldl (fun (acc : gmap string EnvironmentItem * gset string) e =>
            if bool_decide (client.ID e ∈ acc.2) then acc
            else (<[client.Key e := responseItem environment e]> acc.1,
                  {[client.ID e]} ∪ acc.2)) acc l).2
  = acc.2 ∪ list_to_set (client.ID <$> l).
Proof.
  revert acc; induction l as [|e l IH]; intros acc; cbn [foldl].
  - rewrite fmap_nil, list_to_set_nil. by rewrite (right_id_L ∅ (∪)).
  - rewrite IH, fmap_cons, list_to_set_cons. case_bool_decide as Hin; cbn [snd].
    + apply set_eq. intros x. rewrite !elem_of_union, elem_of_singleton.
      split; [tauto|]. intros [?|[-> |?]]; auto.
    + apply set_eq. intros x. rewrite !elem_of_union, elem_of_singleton. tauto.
Qed.

Lemma response_fold_origin (environment : gmap string EnvironmentItem)
    (l : list client.EnvironmentVariable)
    (acc : gmap string EnvironmentItem * gset string) (k : string) (v : EnvironmentItem) :
  (foldl (fun (acc : gmap string EnvironmentItem * gset string) e =>
            if bool_decide (client.ID e ∈ acc.2) then acc
            else (<[client.Key e := responseItem environment e]> acc.1,
                  {[client.ID e]} ∪ acc.2)) acc l).1 !! k = Some v ->
  acc.1 !! k = Some v
  \/ exists e, e ∈ l /\ client.Key e = k /\ v = responseItem environment e.
Proof.
  revert acc; induction l as [|e l IH]; intros acc; cbn [foldl]; [auto|].
  intros Hk. apply IH in Hk as [Hk|(e' & Hin & Hkey & Hv)].
  - case_bool_decide; [auto|]. cbn [fst] in Hk.
    apply lookup_insert_Some in Hk as [[<- <-]|[_ Hk]]; [|auto].
    right. exists e. split; [apply list_elem_of_here|auto].
  - right. exists e'. split; [by apply list_elem_of_further|auto].
Qed.

Lemma response_fold_other (environment : gmap string EnvironmentItem)
    (l : list client.EnvironmentVariable)
    (acc : gmap string EnvironmentItem * gset string) (k : string) :
  (forall e, e ∈ l -> client.Key e <> k) ->
  (foldl (fun (acc : gmap string EnvironmentItem * gset string) e =>
            if bool_decide (client.ID e ∈ acc.2) then acc
            else (<[client.Key e := responseItem environment e]> acc.1,
                  {[client.ID e]} ∪ acc.2)) acc l).1 !! k
  = acc.1 !! k.
Proof.
  revert acc; induction l as [|e l IH]; intros acc Hl; cbn [foldl]; [reflexivity|].
  rewrite IH by (intros e' He'; apply Hl, list_elem_of_further, He').
  case_bool_decide; [reflexivity|]. cbn [fst].
  apply lookup_insert_ne, Hl, list_elem_of_here.
Qed.

Lemma merge_fold (l : list (string * EnvironmentItem))
    (m : gmap string EnvironmentItem) (k : string) :
  NoDup l.*1 ->
  foldl (fun (env : gmap string EnvironmentItem) kv =>
           match env !! kv.1 with
           | Some _ => env
           | None => <[kv.1 := kv.2]> env
           end) m l !! k
  = match m !! k with
    | Some v => Some v
    | None => (list_to_map l : gmap string EnvironmentItem) !! k
    end.
Proof.
  revert m; induction l as [|[k' v'] l IH]; intros m Hnd; cbn [foldl fst snd].
  - rewrite list_to_map_nil, lookup_empty. by destruct (m !! k).
  - rewrite fmap_cons in Hnd. apply NoDup_cons in Hnd as [Hk' Hnd].
    rewrite (IH _ Hnd), list_to_map_cons, lookup_insert. cbn [fst snd].
    destruct (m !! k') as [w|] eqn:Ek'.
    + destruct (decide (k' = k)) as [-> |Hne]; [by rewrite Ek'|reflexivity].
    + rewrite lookup_insert. destruct (decide (k' = k)) as [-> |Hne].
      * by rewrite Ek'.
      * reflexivity.
Qed.

Lemma recorded_lookup (response : list client.EnvironmentVariable)
    (plan : ProjectEnvironmentVariables) (unchanged : gmap string EnvironmentItem)
    (k : string) :
  environment (convertResponseToProjectEnvironmentVariables response plan unchanged) !! k
  = match
      (foldl (fun (acc : gmap string EnvironmentItem * gset string) e =>
                if bool_decide (client.ID e ∈ acc.2) then acc
                else (<[client.Key e := responseItem (environment plan) e]> acc.1,
                      {[client.ID e]} ∪ acc.2)) (∅, ∅) response).1 !! k
    with
    | Some v => Some v
    | None => unchanged !! k
    end.
Proof.
  unfold convertResponseToProjectEnvironmentVariables. cbv zeta.
  unfold environment at 1. cbn [Variables default from_option id].
  rewrite merge_fold by apply NoDup_fst_range. by rewrite list_to_map_range.
Qed.

(** X6.  A variable of [unchanged] whose name no entry of the response
    carries is recorded as it stands. *)
Theorem unchanged_passes_through (response : list client.EnvironmentVariable)
    (plan : ProjectEnvironmentVariables) (unchanged : gmap string EnvironmentItem)
    (k : string) (v : EnvironmentItem) :
  unchanged !! k = Some v ->
  (forall e, e ∈ response -> client.Key e <> k) ->
  environment (convertResponseToProjectEnvironmentVariables response plan unchanged) !! k
  = Some v.
Proof.
  intros Hu Hresp. rewrite recorded_lookup.
  rewrite response_fold_other by exact Hresp. cbn [fst].
  by rewrite lookup_empty.
Qed.

(** X7.  Every recorded variable comes from the response or from
    [unchanged]: it is the record built from an entry of the response that
    carries its name, or it is the variable [unchanged] holds under its name;
    the project ID is the plan's. *)
Theorem recorded_variables_origin (response : list client.EnvironmentVariable)
    (plan : ProjectEnvironmentVariables) (unchanged : gmap string EnvironmentItem)
    (k : string) (v : EnvironmentItem) :
  let result := convertResponseToProjectEnvironmentVariables response plan unchanged in
  environment result !! k = Some v ->
  ((exists e, e ∈ response /\ client.Key e = k
              /\ v = responseItem (environment plan) e)
   \/ unchanged !! k = Some v)
  /\ ProjectID result = ProjectID plan.
Proof.
  cbn zeta. rewrite recorded_lookup. intros Hk. split; [|reflexivity].
  match type of Hk with
  | match ?o with _ => _ end = _ => destruct o as [v'|] eqn:Er
  end.
  - injection Hk as <-.
    apply response_fold_origin in Er as [Hempty|Hfrom]; [|auto].
    cbn [fst] in Hempty. by rewrite lookup_empty in Hempty.
  - auto.
Qed.

(** X8.  An entry of the response whose ID an earlier entry carries is
    ignored: the recorded state is the same without it. *)
Theorem duplicate_id_ignored (l1 l2 : list client.EnvironmentVariable)
    (e : client.EnvironmentVariable) (plan : ProjectEnvironmentVariables)
    (unchanged : gmap string EnvironmentItem) :
  (exists e0, e0 ∈ l1 /\ client.ID e0 = client.ID e) ->
  convertResponseToProjectEnvironmentVariables (l1 ++ e :: l2) plan unchanged
  = convertResponseToProjectEnvironmentVariables (l1 ++ l2) plan unchanged.
Proof.
  intros (e0 & Hin & Hid). unfold convertResponseToProjectEnvironmentVariables.
  rewrite !foldl_app. cbn [foldl].
  rewrite bool_decide_eq_true_2; [reflexivity|].
  rewrite response_fold_ids. apply elem_of_union_r, elem_of_list_to_set.
  rewrite <- Hid. apply list_elem_of_fmap. eauto.
Qed.

(** ** What [Update] calls, and what it leaves *)

Lemma removeAll_events (w : World) (state : ProjectEnvironmentVariables)
    (l : list (string * EnvironmentItem)) (ev : Event) :
  ev ∈ (removeAll w (ValueString (ProjectID state)) (ValueString (TeamID state)) l).1.2 ->
  exists kv, kv ∈ l /\ ev = deleteEvent state kv.
Proof.
  destruct (removeAll_trace w state l) as (done & [rest ->] & Htr & _).
  cbn zeta in Htr. rewrite Htr. intros Hev.
  apply list_elem_of_fmap in Hev as (kv & -> & Hin).
  exists kv. split; [|reflexivity]. apply elem_of_app. by left.
Qed.

Lemma applyPlan_deletions (w : World) (planned state : ProjectEnvironmentVariables)
    (p : OperationPlan) (projectID teamID id : string) :
  EvDeleteEnvironmentVariable projectID teamID id
    ∈ appliedTrace (applyPlan w planned state p) ->
  exists kv, kv ∈ range (toRemove p)
             /\ EvDeleteEnvironmentVariable projectID teamID id = deleteEvent state kv.
Proof.
  unfold applyPlan.
  set (removed := removeAll w _ _ _).
  assert (forall tail,
            (forall ev, ev ∈ tail -> isRemoteCall ev = false
                                     \/ exists q, ev = EvCreateEnvironmentVariables q) ->
            EvDeleteEnvironmentVariable projectID teamID id ∈ removed.1.2 ++ tail ->
            exists kv, kv ∈ range (toRemove p)
              /\ EvDeleteEnvironmentVariable projectID teamID id = deleteEvent state kv)
    as Hsplit.
  { intros tail Htail Hin. apply elem_of_app in Hin as [Hin|Hin].
    - by apply (removeAll_events w state).
    - destruct (Htail _ Hin) as [Hno|[q Hq]]; discriminate. }
  assert (forall q, forall ev,
            ev ∈ (if (0 <? size (toRemove p))%nat then [EvSleep (Second * 5)] else [])
                 ++ [EvCreateEnvironmentVariables q] ->
            isRemoteCall ev = false \/ exists q', ev = EvCreateEnvironmentVariables q')
    as Htail.
  { intros q ev Hev. apply elem_of_app in Hev as [Hev|Hev].
    - destruct (0 <? size (toRemove p))%nat.
      + apply list_elem_of_singleton in Hev as ->. by left.
      + by apply elem_of_nil in Hev.
    - apply list_elem_of_singleton in Hev as ->. right. eauto. }
  destruct removed.2 as [d|]; cbn [appliedTrace].
  - intros Hin. apply (Hsplit []); [|by rewrite app_nil_r].
    intros ev Hev. by apply elem_of_nil in Hev.
  - destruct (0 <? size (toAdd p))%nat.
    + destruct (client.CreateEnvironmentVariables _ _).2.2; cbn [appliedTrace];
        intros Hin; eapply Hsplit; eauto.
    + cbn [appliedTrace]. intros Hin. apply (Hsplit []); [|by rewrite app_nil_r].
      intros ev Hev. by apply elem_of_nil in Hev.
Qed.

(** X9.  [Update] deletes recorded variables only, by their recorded ID and
    in the project and team of the prior state, and never one that is still
    planned while the API holds no entry of its name. *)
Theorem Update_deletes_only_removed (w : World)
    (plan state config : ProjectEnvironmentVariables) (private : gmap string string)
    (projectID teamID id : string) :
  EvDeleteEnvironmentVariable projectID teamID id
    ∈ trace (Update w plan state config private) ->
  let got :=
    client.GetEnvironmentVariables w (ValueString (ProjectID state))
      (ValueString (TeamID state)) in
  projectID = ValueString (ProjectID state)
  /\ teamID = ValueString (TeamID state)
  /\ exists k e,
      environment state !! k = Some e /\ id = ValueString (ID e)
      /\ (environment plan !! k = None
          \/ is_Some (envsFromAPIMapOf got.2.1 !! k)).
Proof.
  cbn zeta. unfold Update.
  set (hashed := setHashes _ _ _). set (got := client.GetEnvironmentVariables w _ _).
  assert (forall tail, (forall ev, ev ∈ tail -> isRemoteCall ev = false) ->
            ~ EvDeleteEnvironmentVariable projectID teamID id
                ∈ (hashed.2 ++ [EvGetEnvironmentVariables (ValueString (ProjectID state))
                                  (ValueString (TeamID state))]) ++ tail) as Hhead.
  { intros tail Htail Hin.
    apply elem_of_app in Hin as [Hin|Hin]; [|by apply Htail in Hin].
    apply elem_of_app in Hin as [Hin|Hin].
    - subst hashed. rewrite setHashes_trace in Hin.
      apply list_elem_of_fmap in Hin as (kv & [=] & _).
    - apply list_elem_of_singleton in Hin. discriminate. }
  destruct (client.NotFound got.2.2); cbn [trace].
  { intros Hin. exfalso. apply (Hhead []); [|by rewrite app_nil_r].
    intros ev Hev. by apply elem_of_nil in Hev. }
  destruct got.2.2 as [err|]; cbn [trace].
  { intros Hin. exfalso. apply (Hhead []); [|by rewrite app_nil_r].
    intros ev Hev. by apply elem_of_nil in Hev. }
  set (planned := reconcile _ _ _ _ _ _).
  intros Hin.
  assert (EvDeleteEnvironmentVariable projectID teamID id
            ∈ appliedTrace (applyPlan got.1 plan state (operations planned))) as Happlied.
  { destruct (appliedResult _); cbn [trace] in Hin;
      (apply elem_of_app in Hin as [Hin|Hin];
       [exfalso; apply (Hhead []); [|by rewrite app_nil_r];
        intros ev Hev; by apply elem_of_nil in Hev|]);
      (apply elem_of_app in Hin as [Hin|Hin]; [|exact Hin]);
      exfalso;
      pose proof (reconcile_trace (privatePrefix plan) (environment plan)
                    (environment config) (environment state) got.2.1 hashed.1) as Hpt;
      fold planned in Hpt;
      apply (proj1 (Forall_forall _ _) Hpt) in Hin; discriminate. }
  apply applyPlan_deletions in Happlied as ([k e] & Hkv & Hev).
  injection Hev as -> -> ->. split; [reflexivity|]. split; [reflexivity|].
  apply elem_of_range in Hkv. subst planned.
  rewrite reconcile_toRemove in Hkv.
  destruct (environment state !! k) as [e'|] eqn:Es; [|discriminate].
  destruct (dropped (environment plan) k
            || replaced (environment plan) (environment config)
                 (envsFromAPIMapOf got.2.1) k e') eqn:Ev; [|discriminate].
  injection Hkv as ->. exists k, e. split; [exact Es|]. split; [reflexivity|].
  apply orb_true_iff in Ev as [Hd|Hr].
  - left. unfold dropped in Hd. by destruct (environment plan !! k).
  - right. apply replaced_true in Hr as (_ & a & Ha & _). eauto.
Qed.

(** X10.  [Update] reports at most one diagnostic, and leaves the recorded
    state untouched exactly when it reports one; it removes the resource
    exactly when the read of the API is answered "not found", and then makes
    no other remote call. *)
Theorem Update_outcome (w : World) (plan state config : ProjectEnvironmentVariables)
    (private : gmap string string) :
  let r := Update w plan state config private in
  let got :=
    client.GetEnvironmentVariables w (ValueString (ProjectID state))
      (ValueString (TeamID state)) in
  (length (Diagnostics r) <= 1)%nat
  /\ (State r = StateUntouched <-> Diagnostics r <> [])
  /\ (State r = StateRemoved <-> client.NotFound got.2.2 = true)
  /\ (State r = StateRemoved ->
      List.filter isRemoteCall (trace r)
      = [EvGetEnvironmentVariables (ValueString (ProjectID state))
           (ValueString (TeamID state))]).
Proof.
  cbn zeta. unfold Update.
  set (hashed := setHashes _ _ _). set (got := client.GetEnvironmentVariables w _ _).
  assert (List.filter isRemoteCall hashed.2 = []) as Hhashed.
  { subst hashed. rewrite setHashes_trace.
    induction (range (environment config)) as [|kv l IH]; [reflexivity|exact IH]. }
  destruct (client.NotFound got.2.2) eqn:Enf; cbn [Diagnostics State trace length].
  - repeat split; try discriminate; try congruence; try lia.
    intros _. rewrite List.filter_app, Hhashed. reflexivity.
  - destruct got.2.2 as [err|]; cbn [Diagnostics State trace length].
    + repeat split; try discriminate; try congruence; try lia.
    + destruct (appliedResult _); cbn [Diagnostics State trace length];
        repeat split; try discriminate; try congruence; try lia.
Qed.

(** ** The digests, from one call to the next plan *)

Lemma storedHashMatches_stored (private : gmap string string) (privateKey : string)
    (stored hash : list Byte.byte) :
  private !! privateKey = Some (storedForm stored) ->
  storedHashMatches private privateKey hash = true <-> stored = hash.
Proof.
  intros Hs. rewrite storedHashMatches_true. split.
  - intros (s & Hs' & _ & Ht). rewrite Hs in Hs'. injection Hs' as <-.
    rewrite Trim_storedForm in Ht. by apply sprintf_x_inj.
  - intros <-. exists (storedForm stored). split; [exact Hs|].
    split; [discriminate|apply Trim_storedForm].
Qed.

Lemma suppress_nil (config : ProjectEnvironmentVariables) (private : gmap string string) :
  suppressWriteOnlyEnvVarUpdates config private = [] <->
  forall k env,
    environment config !! k = Some env ->
    storedHashMatches private (privatePrefix config +:+ k)
      (Sum256 (ValueString (Value env))) = true.
Proof.
  split.
  - intros Hnil k env Hk.
    destruct (storedHashMatches _ _ _) eqn:Em; [reflexivity|].
    apply (requiresReplace_iff config private k env Hk) in Em.
    rewrite Hnil in Em. by apply elem_of_nil in Em.
  - intros Hall.
    destruct (suppressWriteOnlyEnvVarUpdates config private) as [|p l] eqn:El;
      [reflexivity|].
    assert (p ∈ suppressWriteOnlyEnvVarUpdates config private) as Hin
      by (rewrite El; apply list_elem_of_here).
    unfold suppressWriteOnlyEnvVarUpdates in Hin.
    apply requiresReplace_fold in Hin as [Hin|([k env] & Hkv & _ & Hm)].
    + by apply elem_of_nil in Hin.
    + apply elem_of_range in Hkv. cbn [fst snd] in Hm.
      rewrite (Hall k env Hkv) in Hm. discriminate.
Qed.

(** X11.  After [Create], the plan check on the same configuration asks for
    no replacement: every configured value has its digest in the private
    state.  This holds whether or not the batched create succeeded, as soon
    as the project was not answered "not found". *)
Theorem Create_then_plan_clean (w : World) (plan : ProjectEnvironmentVariables)
    (private : gmap string string) :
  client.NotFound
    (client.GetProject w (ValueString (ProjectID plan)) (ValueString (TeamID plan))).2
  = false ->
  suppressWriteOnlyEnvVarUpdates plan (Private (Create w plan private)) = [].
Proof.
  intros Hfound. apply suppress_nil. intros k env Hk.
  unfold Create. rewrite Hfound. cbn [Private].
  apply (storedHashMatches_stored _ _ (Sum256 (ValueString (Value env)))); [|reflexivity].
  by rewrite setHashes_lookup, Hk.
Qed.

(** X12.  After [Update], whatever its outcome, the plan check on the
    configuration asks for no replacement, provided the plan and the
    configuration name the same project and team and every configured name
    is planned: a cycle that failed after the digests were written leaves
    nothing for the next plan to see. *)
Theorem Update_then_plan_clean (w : World)
    (plan state config : ProjectEnvironmentVariables) (private : gmap string string) :
  privatePrefix plan = privatePrefix config ->
  (forall k, is_Some (environment config !! k) -> is_Some (environment plan !! k)) ->
  suppressWriteOnlyEnvVarUpdates config (Private (Update w plan state config private))
  = [].
Proof.
  intros Hprefix Hplanned. apply suppress_nil. intros k env Hk.
  apply (storedHashMatches_stored _ _ (Sum256 (ValueString (Value env)))); [|reflexivity].
  rewrite <- Hprefix.
  assert ((setHashes (privatePrefix plan) (environment config) private).1
            !! (privatePrefix plan +:+ k)
          = Some (storedForm (Sum256 (ValueString (Value env))))) as Hset
    by (by rewrite setHashes_lookup, Hk).
  unfold Update.
  destruct (client.NotFound _); [exact Hset|].
  destruct (client.GetEnvironmentVariables _ _ _).2.2; [exact Hset|].
  assert (is_Some (environment plan !! k)) as Hp by (apply Hplanned; eauto).
  destruct (appliedResult _); cbn [Private];
    by rewrite reconcile_private_kept.
Qed.

(** X13.  After [Create] of a configuration, the plan check on a later
    configuration of the same project and team marks the value of a variable
    both hold exactly when the digests of the two values differ, and marks
    every variable the first configuration did not hold, unless the private
    state already held its digest. *)
Theorem changed_value_flagged (w : World) (config later : ProjectEnvironmentVariables)
    (private : gmap string string) (k : string) (env' : EnvironmentItem) :
  client.NotFound
    (client.GetProject w (ValueString (ProjectID config)) (ValueString (TeamID config))).2
  = false ->
  privatePrefix later = privatePrefix config ->
  environment later !! k = Some env' ->
  let flagged :=
    valuePath k ∈ suppressWriteOnlyEnvVarUpdates later (Private (Create w config private)) in
  (forall env, environment config !! k = Some env ->
     (flagged <-> Sum256 (ValueString (Value env)) <> Sum256 (ValueString (Value env'))))
  /\ (environment config !! k = None ->
      private !! (privatePrefix config +:+ k) = None -> flagged).
Proof.
  intros Hfound Hprefix Hk'. cbn zeta.
  unfold Create. rewrite Hfound. cbn [Private]. split.
  - intros env Hk.
    rewrite (requiresReplace_iff later _ k env' Hk'), Hprefix.
    assert ((setHashes (privatePrefix config) (environment config) private).1
              !! (privatePrefix config +:+ k)
            = Some (storedForm (Sum256 (ValueString (Value env))))) as Hset
      by (by rewrite setHashes_lookup, Hk).
    pose proof (storedHashMatches_stored _ _ _
                  (Sum256 (ValueString (Value env'))) Hset) as Hiff.
    destruct (storedHashMatches _ _ _); split.
    + discriminate.
    + intros Hne. exfalso. apply Hne, Hiff. reflexivity.
    + intros _ Heq. apply (proj2 Hiff) in Heq. discriminate.
    + reflexivity.
  - intros Hnone Hpriv.
    rewrite (requiresReplace_iff later _ k env' Hk'), Hprefix.
    unfold storedHashMatches, GetKey.
    by rewrite setHashes_lookup, Hnone, Hpriv.
Qed.

(** ** [Delete] *)

Lemma deleteAll_trace (w : World) (state : ProjectEnvironmentVariables)
    (l : list (string * EnvironmentItem)) :
  let r := deleteAll w (ValueString (ProjectID state)) (ValueString (TeamID state)) l in
  exists done,
    done `prefix_of` l /\ r.1.2 = deleteEvent state <$> done
    /\ (r.2 = None -> done = l).
Proof.
  revert w; induction l as [|kv l IH]; intros w; cbn zeta.
  - exists []. repeat split; auto.
  - cbn [deleteAll].
    set (r := client.DeleteEnvironmentVariable w _ _ _).
    destruct (IH r.1) as (done & Hpre & Htr & Hall).
    destruct r.2 as [err|].
    + exists [kv]. repeat split; [apply prefix_cons, prefix_nil|discriminate].
    + exists (kv :: done). repeat split.
      * by apply prefix_cons.
      * rewrite fmap_cons. cbn zeta in Htr. rewrite Htr. reflexivity.
      * intros E. f_equal. by apply Hall.
Qed.

(** X14.  [Delete] calls the API once for each recorded variable, in loop
    order, until a call fails: the calls are the deletions of an initial
    segment of the recorded variables, of all of them when nothing is
    reported; at most one diagnostic is reported; the private state, with
    its digests, is left as it was. *)
Theorem Delete_calls (w : World) (state : ProjectEnvironmentVariables)
    (private : gmap string string) :
  let r := Delete w state private in
  (exists done,
      done `prefix_of` range (environment state)
      /\ trace r = (deleteEvent state <$> done)
      /\ (Diagnostics r = [] -> trace r ≡ₚ deleteEvent state <$> map_to_list (environment state)))
  /\ (length (Diagnostics r) <= 1)%nat
  /\ Private r = private.
Proof.
  cbn zeta. unfold Delete.
  destruct (deleteAll_trace w state (range (environment state)))
    as (done & Hpre & Htr & Hall).
  cbn zeta in Htr, Hall. cbn [trace Diagnostics Private]. split; [|split].
  - exists done. split; [exact Hpre|]. split; [exact Htr|].
    destruct (deleteAll _ _ _ _).2; [discriminate|].
    intros _. rewrite Htr, (Hall eq_refl). by rewrite (range_perm _ (environment state)).
  - destruct (deleteAll _ _ _ _).2; cbn [length]; lia.
  - reflexivity.
Qed.

(** ** [Read] *)

Lemma existingIDs_fold (l : list (string * EnvironmentItem)) (ids : gset string)
    (id : string) :
  id ∈ foldl (fun (ids : gset string) (kv : string * EnvironmentItem) =>
                if negb (String.eqb (ValueString (ID kv.2)) "")
                then {[ValueString (ID kv.2)]} ∪ ids else ids) ids l
  <-> id ∈ ids \/ (id <> "" /\ exists kv, kv ∈ l /\ ValueString (ID kv.2) = id).
Proof.
  revert ids; induction l as [|kv l IH]; intros ids; cbn [foldl].
  - split; [auto|]. intros [?|(_ & kv & Hin & _)]; [done|]. by apply elem_of_nil in Hin.
  - rewrite IH. clear IH.
    destruct (String.eqb_spec (ValueString (ID kv.2)) "") as [Heq|Hne]; cbn [negb].
    + split.
      * intros [?|(Hid & kv' & Hin & Hkv')]; [auto|].
        right. split; [exact Hid|]. exists kv'. split; [by apply list_elem_of_further|auto].
      * intros [?|(Hid & kv' & Hin & Hkv')]; [auto|].
        apply elem_of_cons in Hin as [-> |Hin]; [congruence|]. right; eauto.
    + rewrite elem_of_union, elem_of_singleton. split.
      * intros [[-> |?]|(Hid & kv' & Hin & Hkv')]; auto.
        -- right. split; [exact Hne|]. exists kv. split; [apply list_elem_of_here|auto].
        -- right. split; [exact Hid|]. exists kv'.
           split; [by apply list_elem_of_further|auto].
      * intros [?|(Hid & kv' & Hin & Hkv')]; auto.
        apply elem_of_cons in Hin as [-> |Hin]; [auto|]. right; eauto.
Qed.

Lemma elem_of_existingIDs (existing : gmap string EnvironmentItem) (id : string) :
  id ∈ existingIDsOf existing <->
  id <> "" /\ exists k e, existing !! k = Some e /\ ValueString (ID e) = id.
Proof.
  unfold existingIDsOf. rewrite existingIDs_fold. split.
  - intros [Hin|(Hid & [k e] & Hin & Hkv)]; [by apply elem_of_empty in Hin|].
    apply elem_of_range in Hin. eauto.
  - intros (Hid & k & e & Hk & He). right. split; [exact Hid|].
    exists (k, e). split; [by apply elem_of_range|exact He].
Qed.

(** X15.  When no recorded variable has an ID (the state is empty, or every
    ID is empty), [Read] calls nothing and changes nothing. *)
Theorem Read_without_ids (w : World) (state : ProjectEnvironmentVariables)
    (private : gmap string string) :
  (forall k e, environment state !! k = Some e -> ValueString (ID e) = "") ->
  Read w state private
  = {| world := w; Private := private; Diagnostics := [];
       State := StateUntouched; trace := [] |}.
Proof.
  intros Hids. unfold Read.
  assert (existingIDsOf (environment state) = ∅) as ->.
  { apply set_eq. intros id. rewrite elem_of_existingIDs. split.
    - intros (Hid & k & e & Hk & He). rewrite (Hids k e Hk) in He. congruence.
    - intros Hin. by apply elem_of_empty in Hin. }
  reflexivity.
Qed.

Lemma filter_fold {A : Type} (P : A -> Prop) `{!forall x, Decision (P x)}
    (f : list A -> A -> list A) (l acc : list A) :
  (forall acc x, f acc x = if decide (P x) then acc ++ [x] else acc) ->
  foldl f acc l = acc ++ filter P l.
Proof.
  intros Hf. revert acc; induction l as [|x l IH]; intros acc; cbn [foldl].
  - by rewrite filter_nil, app_nil_r.
  - rewrite IH, Hf, filter_cons. case_decide; [|reflexivity].
    by rewrite <- app_assoc.
Qed.

Lemma correlate_fold (e : client.EnvironmentVariable)
    (l : list (string * EnvironmentItem)) (acc : list client.EnvironmentVariable) :
  NoDup l.*1 ->
  foldl (fun toUse kv => if sameVariable kv e then toUse ++ [e] else toUse) acc l
  = if correlates (list_to_map l) e then acc ++ [e] else acc.
Proof.
  unfold correlates. revert acc; induction l as [|[k p] l IH]; intros acc Hnd.
  - cbn [foldl]. by rewrite list_to_map_nil, lookup_empty.
  - rewrite fmap_cons in Hnd. apply NoDup_cons in Hnd as [Hk Hnd].
    cbn [foldl]. rewrite (IH _ Hnd), list_to_map_cons, lookup_insert. cbn [fst snd].
    destruct (decide (k = client.Key e)) as [-> |Hne].
    + rewrite (not_elem_of_list_to_map_1 _ _ Hk). reflexivity.
    + assert (sameVariable (k, p) e = false) as Hother.
      { unfold sameVariable. cbn [fst].
        destruct (String.eqb_spec k (client.Key e)); [contradiction|reflexivity]. }
      by rewrite Hother.
Qed.

(** The entries [Read] uses, without the loops: the entries whose ID is
    recorded, then those whose ID is not recorded and that are the same
    variable as the recorded variable of their name; each in the order of
    the API's list. *)
Lemma toUseOf_filter (existing : gmap string EnvironmentItem)
    (envs : list client.EnvironmentVariable) :
  toUseOf existing envs
  = filter (fun e => client.ID e ∈ existingIDsOf existing) envs
    ++ filter (fun e => (client.ID e ∉ existingIDsOf existing)
                        /\ correlates existing e = true) envs.
Proof.
  unfold toUseOf. cbn zeta.
  rewrite (filter_fold (fun e => client.ID e ∈ existingIDsOf existing) _ envs []).
  - apply filter_fold. intros acc e.
    rewrite correlate_fold by apply NoDup_fst_range. rewrite list_to_map_range.
    case_bool_decide as Hin.
    + rewrite decide_False; [reflexivity|]. intros [Hno _]. contradiction.
    + destruct (correlates existing e).
      * rewrite decide_True; [reflexivity|]. auto.
      * rewrite decide_False; [reflexivity|]. intros [_ ?]. discriminate.
  - intros acc e. case_bool_decide.
    + by rewrite decide_True.
    + by rewrite decide_False.
Qed.

(** X16.  Every variable of the state [Read] sets is built from an entry the
    API returned under that name, and that entry either carries the ID of a
    recorded variable or is the same variable (name, targets and custom
    environments) as the recorded variable of its name: [Read] never records
    a variable the prior state does not account for. *)
Theorem Read_origin (w : World) (state : ProjectEnvironmentVariables)
    (private : gmap string string) (s : ProjectEnvironmentVariables)
    (k : string) (v : EnvironmentItem) :
  State (Read w state private) = StateSet s ->
  environment s !! k = Some v ->
  let got :=
    client.GetEnvironmentVariables w (ValueString (ProjectID state))
      (ValueString (TeamID state)) in
  exists e,
    e ∈ got.2.1 /\ client.Key e = k /\ v = responseItem (environment state) e
    /\ ((client.ID e <> ""
         /\ exists k' p, environment state !! k' = Some p
                         /\ ValueString (ID p) = client.ID e)
        \/ exists p, environment state !! k = Some p
                     /\ sameVariable (k, p) e = true).
Proof.
  cbn zeta. unfold Read.
  destruct (size _ =? 0)%nat; [discriminate|].
  destruct (client.NotFound _); [discriminate|].
  destruct (client.GetEnvironmentVariables _ _ _).2.2 as [err|] eqn:Eerr; [discriminate|].
  cbn [State]. intros [= <-]. rewrite recorded_lookup.
  match goal with
  | |- match ?o with _ => _ end = _ -> _ => destruct o as [v'|] eqn:Er
  end; [|by rewrite lookup_empty].
  intros [= <-].
  apply response_fold_origin in Er as [Hempty|(e & Hin & Hkey & Hv)].
  { cbn [fst] in Hempty. by rewrite lookup_empty in Hempty. }
  rewrite toUseOf_filter in Hin. exists e.
  apply elem_of_app in Hin as [Hin|Hin]; apply list_elem_of_filter in Hin as [Hp Hin].
  - repeat split; auto. left. by apply elem_of_existingIDs in Hp.
  - repeat split; auto. right. destruct Hp as [_ Hc]. unfold correlates in Hc.
    rewrite Hkey in Hc. destruct (environment state !! k) as [p|]; [|discriminate].
    exists p. split; [reflexivity|exact Hc].
Qed.

Lemma response_fold_keeps (environment : gmap string EnvironmentItem)
    (l : list client.EnvironmentVariable)
    (acc : gmap string EnvironmentItem * gset string) (k : string) :
  is_Some (acc.1 !! k) ->
  is_Some ((foldl (fun (acc : gmap string EnvironmentItem * gset string) e =>
                     if bool_decide (client.ID e ∈ acc.2) then acc
                     else (<[client.Key e := responseItem environment e]> acc.1,
                           {[client.ID e]} ∪ acc.2)) acc l).1 !! k).
Proof.
  revert acc; induction l as [|e l IH]; intros acc Hk; cbn [foldl]; [exact Hk|].
  apply IH. case_bool_decide; [exact Hk|]. cbn [fst].
  rewrite lookup_insert. case_decide; [eauto|exact Hk].
Qed.

Lemma response_fold_all (environment : gmap string EnvironmentItem)
    (l : list client.EnvironmentVariable)
    (acc : gmap string EnvironmentItem * gset string) (e : client.EnvironmentVariable) :
  NoDup (client.ID <$> l) ->
  (forall x, x ∈ l -> client.ID x ∉ acc.2) ->
  e ∈ l ->
  is_Some ((foldl (fun (acc : gmap string EnvironmentItem * gset string) e =>
                     if bool_decide (client.ID e ∈ acc.2) then acc
                     else (<[client.Key e := responseItem environment e]> acc.1,
                           {[client.ID e]} ∪ acc.2)) acc l).1 !! client.Key e).
Proof.
  revert acc; induction l as [|x l IH]; intros acc Hnd Hfresh Hin.
  - by apply elem_of_nil in Hin.
  - rewrite fmap_cons in Hnd. apply NoDup_cons in Hnd as [Hx Hnd]. cbn [foldl].
    rewrite bool_decide_eq_false_2 by apply Hfresh, list_elem_of_here.
    apply elem_of_cons in Hin as [-> |Hin].
    + apply response_fold_keeps. cbn [fst]. rewrite lookup_insert_eq. eauto.
    + apply IH; [exact Hnd| |exact Hin].
      intros y Hy. cbn [snd]. rewrite elem_of_union, elem_of_singleton.
      intros [Heq|Hacc].
      * apply Hx. rewrite <- Heq. apply list_elem_of_fmap. eauto.
      * apply (Hfresh y); [by apply list_elem_of_further|exact Hacc].
Qed.

(** X17.  When some recorded variable has an ID, the read of the API
    succeeds and the IDs of its entries are pairwise distinct, [Read] sets a
    state that holds a variable under the name of every entry that carries a
    recorded ID, and of every entry that is the same variable as the
    recorded variable of its name: a variable deleted and created again
    outside, under a new ID, is read back. *)
Theorem Read_keeps (w : World) (state : ProjectEnvironmentVariables)
    (private : gmap string string) (e : client.EnvironmentVariable) :
  let got :=
    client.GetEnvironmentVariables w (ValueString (ProjectID state))
      (ValueString (TeamID state)) in
  existingIDsOf (environment state) <> ∅ ->
  got.2.2 = None ->
  NoDup (client.ID <$> got.2.1) ->
  e ∈ got.2.1 ->
  client.ID e ∈ existingIDsOf (environment state)
  \/ correlates (environment state) e = true ->
  exists s, State (Read w state private) = StateSet s
            /\ is_Some (environment s !! client.Key e).
Proof.
  cbn zeta. intros Hids Herr Hnd Hin Hsel. unfold Read.
  destruct (size _ =? 0)%nat eqn:Esize.
  { exfalso. apply Hids. apply Nat.eqb_eq in Esize.
    apply leibniz_equiv, size_empty_iff, Esize. }
  rewrite Herr. cbn [client.NotFound State]. eexists. split; [reflexivity|].
  rewrite recorded_lookup.
  set (live := (client.GetEnvironmentVariables w _ _).2.1) in *.
  assert (e ∈ toUseOf (environment state) live) as Huse.
  { rewrite toUseOf_filter. apply elem_of_app.
    destruct (decide (client.ID e ∈ existingIDsOf (environment state))) as [Hid|Hid].
    - left. by apply list_elem_of_filter.
    - right. apply list_elem_of_filter. destruct Hsel; [contradiction|auto]. }
  assert (NoDup (client.ID <$> toUseOf (environment state) live)) as Hnd'.
  { rewrite toUseOf_filter, fmap_app. apply NoDup_app. split; [|split].
    - eapply sublist_NoDup; [exact Hnd|]. apply fmap_sublist, sublist_filter.
    - intros id Hl Hr.
      apply list_elem_of_fmap in Hl as (x & -> & Hx).
      apply list_elem_of_fmap in Hr as (y & Hxy & Hy).
      apply list_elem_of_filter in Hx as [Hx _].
      apply list_elem_of_filter in Hy as [[Hy _] _]. rewrite Hxy in Hx. contradiction.
    - eapply sublist_NoDup; [exact Hnd|]. apply fmap_sublist, sublist_filter. }
  destruct (response_fold_all (environment state) _ (∅, ∅) e Hnd') as [v Hv];
    [|exact Huse|by rewrite Hv; eauto].
  intros x _. cbn [snd]. apply not_elem_of_empty.
Qed.

(** ** [ModifyPlan] *)

Lemma nonSensitive_fold (l : list (string * EnvironmentItem))
    (acc : list (list string)) (p : list string) :
  p ∈ foldl (fun (paths : list (list string)) (kv : string * EnvironmentItem) =>
               if negb (String.eqb (ValueString (ID kv.2)) "") then paths
               else match Sensitive kv.2 with
                    | BoolValue false => paths ++ [sensitivePath kv.1]
                    | _ => paths
                    end) acc l
  <-> p ∈ acc
      \/ exists kv, kv ∈ l /\ ValueString (ID kv.2) = ""
                    /\ Sensitive kv.2 = BoolValue false /\ p = sensitivePath kv.1.
Proof.
  revert acc; induction l as [|kv l IH]; intros acc; cbn [foldl].
  - split; [auto|]. intros [?|(kv & Hin & _)]; [done|]. by apply elem_of_nil in Hin.
  - rewrite IH. clear IH.
    assert (~ (ValueString (ID kv.2) = "" /\ Sensitive kv.2 = BoolValue false) ->
            (p ∈ acc \/ exists kv', kv' ∈ l /\ ValueString (ID kv'.2) = ""
                     /\ Sensitive kv'.2 = BoolValue false /\ p = sensitivePath kv'.1)
            <-> (p ∈ acc \/ exists kv', kv' ∈ kv :: l /\ ValueString (ID kv'.2) = ""
                     /\ Sensitive kv'.2 = BoolValue false /\ p = sensitivePath kv'.1))
      as Hskip.
    { intros Hno. split.
      - intros [?|(kv' & Hin & Hrest)]; [auto|].
        right. exists kv'. split; [by apply list_elem_of_further|exact Hrest].
      - intros [?|(kv' & Hin & Hid & Hs & Hp)]; [auto|].
        apply elem_of_cons in Hin as [-> |Hin]; [exfalso; auto|]. right; eauto. }
    destruct (String.eqb_spec (ValueString (ID kv.2)) "") as [Hid|Hid]; cbn [negb].
    + destruct (Sensitive kv.2) as [| |[]] eqn:Es;
        try (apply Hskip; intros [_ ?]; discriminate).
      rewrite elem_of_app, list_elem_of_singleton. split.
      * intros [[?| ->]|(kv' & Hin & Hrest)]; auto.
        -- right. exists kv. split; [apply list_elem_of_here|auto].
        -- right. exists kv'. split; [by apply list_elem_of_further|exact Hrest].
      * intros [?|(kv' & Hin & Hid' & Hs & Hp)]; auto.
        apply elem_of_cons in Hin as [-> |Hin]; [auto|]. right; eauto.
    + apply Hskip. intros [? _]. contradiction.
Qed.

Lemma elem_of_nonSensitive (environment : gmap string EnvironmentItem) (p : list string) :
  p ∈ nonSensitiveEnvVarsOf environment <->
  exists k e, environment !! k = Some e /\ ValueString (ID e) = ""
              /\ Sensitive e = BoolValue false /\ p = sensitivePath k.
Proof.
  unfold nonSensitiveEnvVarsOf. rewrite nonSensitive_fold. split.
  - intros [Hin|([k e] & Hin & Hrest)]; [by apply elem_of_nil in Hin|].
    apply elem_of_range in Hin. eauto.
  - intros (k & e & Hk & Hrest). right. exists (k, e).
    split; [by apply elem_of_range|exact Hrest].
Qed.

(** X18.  For a plan that is not a destruction and a configuration with at
    least one variable, [ModifyPlan] asks for the replacements the drift
    check finds; it fetches the team exactly when some variable without ID is
    configured with [sensitive] set to false; and when the team is fetched
    without error and its policy is [on], it rejects exactly those variables,
    each at the path of its [sensitive] flag, and nothing else.  With another
    policy, or none, it reports nothing. *)
Theorem ModifyPlan_policy (w : World) (config : ProjectEnvironmentVariables)
    (private : gmap string string) :
  environment config <> ∅ ->
  let r := ModifyPlan w false config private in
  let team := Team w (ValueString (TeamID config)) in
  let plain k :=
    exists e, environment config !! k = Some e /\ ValueString (ID e) = ""
              /\ Sensitive e = BoolValue false in
  RequiresReplace r = suppressWriteOnlyEnvVarUpdates config private
  /\ (teamCalls r <> [] <-> exists k, plain k)
  /\ (team.2.2 = None ->
      SensitiveEnvironmentVariablePolicy team.2.1 = Some "on" ->
      forall pd, pd ∈ PlanDiagnostics r <->
                 exists k, plain k /\ pd = (Some (sensitivePath k), policyViolation))
  /\ (team.2.2 = None ->
      SensitiveEnvironmentVariablePolicy team.2.1 <> Some "on" ->
      PlanDiagnostics r = []).
Proof.
  intros Hne. cbn zeta. unfold ModifyPlan.
  assert ((size (environment config) =? 0)%nat = false) as ->.
  { apply Nat.eqb_neq. intros E. by apply map_size_empty_iff in E. }
  pose proof (elem_of_nonSensitive (environment config)) as Hmem.
  destruct (nonSensitiveEnvVarsOf (environment config)) as [|p0 paths] eqn:Epaths.
  - cbn [RequiresReplace teamCalls PlanDiagnostics].
    assert (~ exists k e, environment config !! k = Some e /\ ValueString (ID e) = ""
                          /\ Sensitive e = BoolValue false) as Hnone.
    { intros (k & e & Hk & Hid & Hs).
      apply (not_elem_of_nil (sensitivePath k)), Hmem. exists k, e. auto. }
    split; [reflexivity|]. split; [|split].
    + split; [congruence|]. intros (k & e & Hk). exfalso. apply Hnone. eauto.
    + intros _ _ pd. split; [intros Hin; by apply elem_of_nil in Hin|].
      intros (k & (e & Hk) & _). exfalso. apply Hnone. eauto.
    + reflexivity.
  - assert (exists k, exists e, environment config !! k = Some e
                        /\ ValueString (ID e) = "" /\ Sensitive e = BoolValue false)
      as Hsome.
    { destruct (proj1 (Hmem p0) (list_elem_of_here _ _)) as (k & e & Hk & Hid & Hs & _).
      eauto. }
    destruct (Team w (ValueString (TeamID config))).2.2 as [err|] eqn:Eerr;
      cbn [RequiresReplace teamCalls PlanDiagnostics].
    + split; [reflexivity|]. split; [|split; discriminate].
      split; [intros _; exact Hsome|discriminate].
    + split; [reflexivity|]. split; [|split].
      * split; [intros _; exact Hsome|discriminate].
      * intros _ Hon pd. rewrite Hon. cbn [String.eqb Ascii.eqb Bool.eqb].
        rewrite list_elem_of_fmap. split.
        -- intros (p & -> & Hp). apply Hmem in Hp as (k & e & Hk & Hid & Hs & ->).
           exists k. split; [eauto|reflexivity].
        -- intros (k & (e & Hk & Hid & Hs) & ->). exists (sensitivePath k).
           split; [reflexivity|]. apply Hmem. exists k, e. auto.
      * intros _ Hoff.
        destruct (SensitiveEnvironmentVariablePolicy _) as [policy|]; [|reflexivity].
        destruct (String.eqb_spec policy "on") as [-> |_]; [congruence|reflexivity].
Qed.

End MoreProperties.

(** ** The order in which maps are visited *)

Lemma foldl_pointwise {A B : Type} (f g : A -> B -> A) (l : list B) (a : A) :
  (forall a b, f a b = g a b) -> foldl f a l = foldl g a l.
Proof.
  intros Hfg. revert a; induction l as [|b l IH]; intros a; cbn [foldl]; [reflexivity|].
  by rewrite Hfg, IH.
Qed.

(** X19.  The plan of [Update] and the recorded state built from a response
    do not depend on the order in which Go visits the maps: two platforms
    that compare string sets alike (and build team IDs alike) give the same
    [toAdd], [toRemove] and [unchanged] and the same recorded state,
    whatever their orders. *)
Theorem iteration_order_irrelevant (P1 P2 : Platform) :
  (forall a b, @isSameStringSet P1 a b = @isSameStringSet P2 a b) ->
  (forall id, @toTeamID P1 id = @toTeamID P2 id) ->
  (forall prefix planEnvs configEnvs stateEnvs envsFromAPI private,
      operations (@reconcile P1 prefix planEnvs configEnvs stateEnvs envsFromAPI private)
      = operations (@reconcile P2 prefix planEnvs configEnvs stateEnvs envsFromAPI private))
  /\ (forall response plan unchanged,
        @convertResponseToProjectEnvironmentVariables P1 response plan unchanged
        = @convertResponseToProjectEnvironmentVariables P2 response plan unchanged).
Proof.
  intros Hsets Hteam. split.
  - intros prefix planEnvs configEnvs stateEnvs envsFromAPI private.
    assert (forall k e,
              @replaced P1 planEnvs configEnvs (envsFromAPIMapOf envsFromAPI) k e
              = @replaced P2 planEnvs configEnvs (envsFromAPIMapOf envsFromAPI) k e)
      as Hrep.
    { intros k e. unfold replaced.
      destruct (planEnvs !! k); [|reflexivity].
      destruct (envsFromAPIMapOf envsFromAPI !! k); [|reflexivity].
      unfold envVarMatches. by rewrite !Hsets. }
    pose proof (@reconcile_toAdd P1 prefix planEnvs configEnvs stateEnvs envsFromAPI private) as A1.
    pose proof (@reconcile_toAdd P2 prefix planEnvs configEnvs stateEnvs envsFromAPI private) as A2.
    pose proof (@reconcile_toRemove P1 prefix planEnvs configEnvs stateEnvs envsFromAPI private) as R1.
    pose proof (@reconcile_toRemove P2 prefix planEnvs configEnvs stateEnvs envsFromAPI private) as R2.
    pose proof (@reconcile_unchanged P1 prefix planEnvs configEnvs stateEnvs envsFromAPI private) as U1.
    pose proof (@reconcile_unchanged P2 prefix planEnvs configEnvs stateEnvs envsFromAPI private) as U2.
    destruct (operations (@reconcile P1 _ _ _ _ _ _)) as [a1 r1 u1].
    destruct (operations (@reconcile P2 _ _ _ _ _ _)) as [a2 r2 u2].
    cbn [toAdd toRemove unchanged] in *.
    f_equal; apply map_eq; intros k.
    + rewrite A1, A2. destruct (planEnvs !! k); [|reflexivity].
      destruct (envsFromAPIMapOf envsFromAPI !! k); [|reflexivity].
      destruct (stateEnvs !! k); [|reflexivity]. by rewrite Hrep.
    + rewrite R1, R2. destruct (stateEnvs !! k); [|reflexivity]. by rewrite Hrep.
    + rewrite U1, U2. destruct (stateEnvs !! k); [|reflexivity]. by rewrite Hrep.
  - intros response plan unchanged.
    assert (forall P : Platform,
              @convertResponseToProjectEnvironmentVariables P response plan unchanged
              = {| TeamID := @toTeamID P (ValueString (TeamID plan));
                   ProjectID := ProjectID plan;
                   Variables :=
                     Some (environment
                             (@convertResponseToProjectEnvironmentVariables P response
                                plan unchanged)) |}) as Hshape by reflexivity.
    rewrite (Hshape P1), (Hshape P2), Hteam. do 2 f_equal.
    apply map_eq. intros k.
    rewrite (@recorded_lookup P1), (@recorded_lookup P2).
    assert (forall e, @responseItem P1 (environment plan) e
                      = @responseItem P2 (environment plan) e) as Hitem.
    { intros e. unfold responseItem. f_equal.
      rewrite (@recordedValue_lookup P1), (@recordedValue_lookup P2). cbn zeta.
      destruct (_ || _); [|reflexivity].
      destruct (environment plan !! client.Key e); [|reflexivity].
      by rewrite !Hsets. }
    erewrite (foldl_pointwise _ _ response); [reflexivity|].
    intros acc e. cbn beta. by rewrite Hitem.
Qed.

(** ** Worked cases of the further properties *)

Lemma environment_resourceOf (vars : gmap string EnvironmentItem) :
  environment (resourceOf vars) = vars.
Proof. reflexivity. Qed.

(** X2 (witness).  The API lists [A] twice, then [B]. *)
Lemma envsFromAPIMapOf_last_witness :
  let later := liveEntry "A" "r2" "y" "encrypted" in
  let l1 := [liveEntry "A" "r1" "x" "encrypted"] in
  let l2 := [liveEntry "B" "r3" "z" "encrypted"] in
  (forall a, a ∈ l2 -> client.Key a <> client.Key later)
  /\ envsFromAPIMapOf (l1 ++ later :: l2) !! client.Key later = Some later.
Proof.
  cbn zeta.
  assert (forall a, a ∈ [liveEntry "B" "r3" "z" "encrypted"] ->
            client.Key a <> client.Key (liveEntry "A" "r2" "y" "encrypted")) as Hl2.
  { intros a Ha. apply list_elem_of_singleton in Ha as ->. discriminate. }
  split; [exact Hl2|].
  exact (envsFromAPIMapOf_last [liveEntry "A" "r1" "x" "encrypted"]
           [liveEntry "B" "r3" "z" "encrypted"]
           (liveEntry "A" "r2" "y" "encrypted") Hl2).
Defined.

(** X4 (witness).  A sensitive entry of the API that carries a value, for a
    variable the plan holds with a null value. *)
Lemma sensitive_value_not_recorded_witness :
  let environment : gmap string EnvironmentItem := {["A" := item "" StringNull true]} in
  let e := liveEntry "A" "r1" "leaked" "sensitive" in
  client.Type_ e = "sensitive"
  /\ (Value (responseItem environment e) = StringNull
      \/ exists p, environment !! client.Key e = Some p
                   /\ Value (responseItem environment e) = Value p).
Proof.
  cbn zeta. split; [reflexivity|].
  exact (sensitive_value_not_recorded {["A" := item "" StringNull true]}
           (liveEntry "A" "r1" "leaked" "sensitive") eq_refl).
Defined.

(** X5 (witness).  A readable entry of the API. *)
Lemma readable_value_recorded_witness :
  let environment : gmap string EnvironmentItem := {["A" := item "" StringNull false]} in
  let e := liveEntry "A" "r1" "x" "encrypted" in
  client.Decrypted e <> Some false /\ client.Type_ e <> "sensitive"
  /\ Value (responseItem environment e) = StringValue (client.Value e)
  /\ ID (responseItem environment e) = StringValue (client.ID e)
  /\ Sensitive (responseItem environment e) = BoolValue false
  /\ Comment (responseItem environment e) = StringValue (client.Comment e).
Proof.
  cbn zeta.
  assert (client.Decrypted (liveEntry "A" "r1" "x" "encrypted") <> Some false)
    as Hd by discriminate.
  assert (client.Type_ (liveEntry "A" "r1" "x" "encrypted") <> "sensitive")
    as Ht by discriminate.
  split; [exact Hd|]. split; [exact Ht|].
  exact (readable_value_recorded {["A" := item "" StringNull false]}
           (liveEntry "A" "r1" "x" "encrypted") Hd Ht).
Defined.

(** X6 (witness).  [B] is unchanged and the response names [A] only. *)
Lemma unchanged_passes_through_witness :
  let response := [liveEntry "A" "r1" "x" "encrypted"] in
  let plan := resourceOf {["A" := item "" StringNull false;
                           "B" := item "r2" StringNull false]} in
  let unchanged : gmap string EnvironmentItem := {["B" := item "r2" StringNull false]} in
  unchanged !! "B" = Some (item "r2" StringNull false)
  /\ (forall e, e ∈ response -> client.Key e <> "B")
  /\ environment (convertResponseToProjectEnvironmentVariables response plan unchanged)
       !! "B" = Some (item "r2" StringNull false).
Proof.
  cbn zeta.
  assert ((({["B" := item "r2" StringNull false]} : gmap string EnvironmentItem) !! "B")
          = Some (item "r2" StringNull false)) as Hu by (vm_compute; reflexivity).
  assert (forall e, e ∈ [liveEntry "A" "r1" "x" "encrypted"] -> client.Key e <> "B")
    as Hresp.
  { intros e He. apply list_elem_of_singleton in He as ->. discriminate. }
  split; [exact Hu|]. split; [exact Hresp|].
  exact (unchanged_passes_through [liveEntry "A" "r1" "x" "encrypted"]
           (resourceOf {["A" := item "" StringNull false;
                         "B" := item "r2" StringNull false]})
           {["B" := item "r2" StringNull false]} "B" (item "r2" StringNull false)
           Hu Hresp).
Defined.

(** X7 (witness).  The variable recorded under [A] comes from the response,
    although [unchanged] holds [A] too. *)
Lemma recorded_variables_origin_witness :
  let response := [liveEntry "A" "r9" "x" "encrypted"] in
  let plan := resourceOf {["A" := item "" StringNull false]} in
  let unchanged : gmap string EnvironmentItem := {["A" := item "r1" StringNull false]} in
  let result := convertResponseToProjectEnvironmentVariables response plan unchanged in
  let v := responseItem (environment plan) (liveEntry "A" "r9" "x" "encrypted") in
  environment result !! "A" = Some v
  /\ ((exists e, e ∈ response /\ client.Key e = "A"
                 /\ v = responseItem (environment plan) e)
      \/ unchanged !! "A" = Some v)
  /\ ProjectID result = ProjectID plan.
Proof.
  cbn zeta.
  assert (environment
            (convertResponseToProjectEnvironmentVariables
               [liveEntry "A" "r9" "x" "encrypted"]
               (resourceOf {["A" := item "" StringNull false]})
               {["A" := item "r1" StringNull false]}) !! "A"
          = Some (responseItem (environment (resourceOf {["A" := item "" StringNull false]}))
                    (liveEntry "A" "r9" "x" "encrypted"))) as Hk
    by (vm_compute; reflexivity).
  split; [exact Hk|].
  exact (recorded_variables_origin [liveEntry "A" "r9" "x" "encrypted"]
           (resourceOf {["A" := item "" StringNull false]})
           {["A" := item "r1" StringNull false]} "A" _ Hk).
Defined.

(** X8 (witness).  The API returns the entry [r1] twice. *)
Lemma duplicate_id_ignored_witness :
  let first := liveEntry "A" "r1" "x" "encrypted" in
  let again := liveEntry "A" "r1" "other" "encrypted" in
  let plan := resourceOf {["A" := item "" StringNull false]} in
  (exists e0, e0 ∈ [first] /\ client.ID e0 = client.ID again)
  /\ convertResponseToProjectEnvironmentVariables ([first] ++ again :: []) plan ∅
     = convertResponseToProjectEnvironmentVariables ([first] ++ []) plan ∅.
Proof.
  cbn zeta.
  assert (exists e0, e0 ∈ [liveEntry "A" "r1" "x" "encrypted"]
                     /\ client.ID e0 = client.ID (liveEntry "A" "r1" "other" "encrypted"))
    as Hdup.
  { exists (liveEntry "A" "r1" "x" "encrypted"). split; [apply list_elem_of_here|reflexivity]. }
  split; [exact Hdup|].
  exact (duplicate_id_ignored [liveEntry "A" "r1" "x" "encrypted"] []
           (liveEntry "A" "r1" "other" "encrypted")
           (resourceOf {["A" := item "" StringNull false]}) ∅ Hdup).
Defined.

(** X9 (witness).  [A] is dropped from the plan; [Update] deletes it by its
    recorded ID. *)
Lemma Update_deletes_only_removed_witness :
  let state := resourceOf {["A" := item "r1" StringNull false]} in
  let w := remoteOf [liveEntry "A" "r1" "x" "encrypted"] in
  let got :=
    client.GetEnvironmentVariables w (ValueString (ProjectID state))
      (ValueString (TeamID state)) in
  EvDeleteEnvironmentVariable "prj" "team" "r1"
    ∈ trace (Update w (resourceOf ∅) state (resourceOf ∅) ∅)
  /\ "prj" = ValueString (ProjectID state)
  /\ "team" = ValueString (TeamID state)
  /\ exists k e,
      environment state !! k = Some e /\ "r1" = ValueString (ID e)
      /\ (environment (resourceOf ∅) !! k = None
          \/ is_Some (envsFromAPIMapOf got.2.1 !! k)).
Proof.
  cbn zeta.
  assert (EvDeleteEnvironmentVariable "prj" "team" "r1"
            ∈ trace (Update (remoteOf [liveEntry "A" "r1" "x" "encrypted"])
                       (resourceOf ∅)
                       (resourceOf {["A" := item "r1" StringNull false]})
                       (resourceOf ∅) ∅)) as Hin.
  { vm_compute. do 2 apply list_elem_of_further. apply list_elem_of_here. }
  split; [exact Hin|].
  exact (Update_deletes_only_removed (remoteOf [liveEntry "A" "r1" "x" "encrypted"])
           (resourceOf ∅) (resourceOf {["A" := item "r1" StringNull false]})
           (resourceOf ∅) ∅ "prj" "team" "r1" Hin).
Defined.

(** X11 (witness).  [Create] of [A], then the plan check on the same
    configuration. *)
Lemma Create_then_plan_clean_witness :
  let plan := resourceOf {["A" := item "" (StringValue "x") false]} in
  let w := remoteOf [] in
  client.NotFound
    (client.GetProject w (ValueString (ProjectID plan)) (ValueString (TeamID plan))).2
  = false
  /\ suppressWriteOnlyEnvVarUpdates plan (Private (Create w plan ∅)) = [].
Proof.
  cbn zeta.
  assert (client.NotFound
            (client.GetProject (remoteOf [])
               (ValueString (ProjectID (resourceOf {["A" := item "" (StringValue "x") false]})))
               (ValueString (TeamID (resourceOf {["A" := item "" (StringValue "x") false]})))).2
          = false) as Hfound by reflexivity.
  split; [exact Hfound|].
  exact (Create_then_plan_clean (remoteOf [])
           (resourceOf {["A" := item "" (StringValue "x") false]}) ∅ Hfound).
Defined.

(** X12 (witness).  An [Update] whose batched create is refused, then the
    plan check on the configuration. *)
Lemma Update_then_plan_clean_witness :
  let w := {| inmemory.live := []; inmemory.deleteFailure := None;
              inmemory.createFailure := Some (client.ErrOther "boom") |} in
  let plan := resourceOf {["A" := item "" StringNull false]} in
  let config := resourceOf {["A" := item "" (StringValue "x") false]} in
  privatePrefix plan = privatePrefix config
  /\ (forall k, is_Some (environment config !! k) -> is_Some (environment plan !! k))
  /\ suppressWriteOnlyEnvVarUpdates config (Private (Update w plan (resourceOf ∅) config ∅))
     = [].
Proof.
  cbn zeta.
  assert (privatePrefix (resourceOf {["A" := item "" StringNull false]})
          = privatePrefix (resourceOf {["A" := item "" (StringValue "x") false]}))
    as Hprefix by reflexivity.
  assert (forall k,
            is_Some (environment (resourceOf {["A" := item "" (StringValue "x") false]}) !! k) ->
            is_Some (environment (resourceOf {["A" := item "" StringNull false]}) !! k))
    as Hplanned.
  { intros k [e Hk]. rewrite environment_resourceOf in Hk |- *.
    apply lookup_singleton_Some in Hk as [<- _].
    eexists. apply lookup_singleton_eq. }
  split; [exact Hprefix|]. split; [exact Hplanned|].
  exact (Update_then_plan_clean
           {| inmemory.live := []; inmemory.deleteFailure := None;
              inmemory.createFailure := Some (client.ErrOther "boom") |}
           (resourceOf {["A" := item "" StringNull false]}) (resourceOf ∅)
           (resourceOf {["A" := item "" (StringValue "x") false]}) ∅ Hprefix Hplanned).
Defined.

(** X15 (witness).  A state whose only variable has no ID. *)
Lemma Read_without_ids_witness :
  let state := resourceOf {["A" := item "" StringNull false]} in
  let w := remoteOf [liveEntry "A" "r1" "x" "encrypted"] in
  (forall k e, environment state !! k = Some e -> ValueString (ID e) = "")
  /\ Read w state ∅
     = {| world := w; Private := ∅; Diagnostics := [];
          State := StateUntouched; trace := [] |}.
Proof.
  cbn zeta.
  assert (forall k e,
            environment (resourceOf {["A" := item "" StringNull false]}) !! k = Some e ->
            ValueString (ID e) = "") as Hids.
  { intros k e Hk. rewrite environment_resourceOf in Hk.
    apply lookup_singleton_Some in Hk as [_ <-]. reflexivity. }
  split; [exact Hids|].
  exact (Read_without_ids (remoteOf [liveEntry "A" "r1" "x" "encrypted"])
           (resourceOf {["A" := item "" StringNull false]}) ∅ Hids).
Defined.

(** X18 (witness).  [A] is configured with [sensitive] set to false and [B]
    with it set to true, in a team whose policy is [on]. *)
Lemma ModifyPlan_policy_witness :
  let config :=
    resourceOf {["A" := item "" (StringValue "x") false;
                 "B" := item "" (StringValue "y") true]} in
  let r := ModifyPlan (remoteOf []) false config ∅ in
  environment config <> ∅
  /\ (forall pd, pd ∈ PlanDiagnostics r <->
        exists k,
          (exists e, environment config !! k = Some e /\ ValueString (ID e) = ""
                     /\ Sensitive e = BoolValue false)
          /\ pd = (Some (sensitivePath k), policyViolation))
  /\ PlanDiagnostics r = [(Some (sensitivePath "A"), policyViolation)].
Proof.
  cbn zeta.
  assert (environment (resourceOf {["A" := item "" (StringValue "x") false;
                                    "B" := item "" (StringValue "y") true]}) <> ∅)
    as Hne.
  { intros E. apply (f_equal (fun m => m !! "A")) in E. vm_compute in E. discriminate. }
  split; [exact Hne|]. split; [|vm_compute; reflexivity].
  destruct (ModifyPlan_policy (remoteOf [])
              (resourceOf {["A" := item "" (StringValue "x") false;
                            "B" := item "" (StringValue "y") true]}) ∅ Hne)
    as (_ & _ & Hon & _).
  exact (Hon eq_refl eq_refl).
Defined.

(** X19 (witness).  The platform that visits maps in the opposite order. *)
Lemma iteration_order_irrelevant_witness :
  let planEnvs : gmap string EnvironmentItem :=
    {["A" := item "r1" StringNull false; "B" := item "" StringNull false]} in
  let configEnvs : gmap string EnvironmentItem :=
    {["A" := item "" (StringValue "x") false; "B" := item "" (StringValue "y") false]} in
  let stateEnvs : gmap string EnvironmentItem :=
    {["A" := item "r1" StringNull false; "C" := item "r3" StringNull false]} in
  let envsFromAPI := [liveEntry "A" "r1" "old" "encrypted"] in
  (forall a b, @isSameStringSet goPlatform a b = @isSameStringSet reversedPlatform a b)
  /\ (forall id, @toTeamID goPlatform id = @toTeamID reversedPlatform id)
  /\ operations (@reconcile goPlatform "vercel_env_prj_team_" planEnvs configEnvs
                   stateEnvs envsFromAPI ∅)
     = operations (@reconcile reversedPlatform "vercel_env_prj_team_" planEnvs configEnvs
                     stateEnvs envsFromAPI ∅).
Proof.
  cbn zeta.
  assert (forall a b, @isSameStringSet goPlatform a b = @isSameStringSet reversedPlatform a b)
    as Hsets by reflexivity.
  assert (forall id, @toTeamID goPlatform id = @toTeamID reversedPlatform id)
    as Hteam by reflexivity.
  split; [exact Hsets|]. split; [exact Hteam|].
  destruct (iteration_order_irrelevant goPlatform reversedPlatform Hsets Hteam)
    as [Hplan _].
  apply Hplan.
Defined.

(** X13 (witness).  [A] is created with the value [x] and later configured
    with the value [y]; [B] is configured later only. *)
Lemma changed_value_flagged_witness :
  let config := resourceOf {["A" := item "" (StringValue "x") false]} in
  let later := resourceOf {["A" := item "" (StringValue "y") false;
                            "B" := item "" (StringValue "z") false]} in
  let w := remoteOf [] in
  let private := Private (Create w config ∅) in
  client.NotFound
    (client.GetProject w (ValueString (ProjectID config)) (ValueString (TeamID config))).2
  = false
  /\ privatePrefix later = privatePrefix config
  /\ environment later !! "A" = Some (item "" (StringValue "y") false)
  /\ environment later !! "B" = Some (item "" (StringValue "z") false)
  /\ (valuePath "A" ∈ suppressWriteOnlyEnvVarUpdates later private
      <-> Sum256 (ValueString (Value (item "" (StringValue "x") false)))
          <> Sum256 (ValueString (Value (item "" (StringValue "y") false))))
  /\ valuePath "B" ∈ suppressWriteOnlyEnvVarUpdates later private.
Proof.
  cbn zeta.
  assert (client.NotFound
            (client.GetProject (remoteOf [])
               (ValueString (ProjectID (resourceOf {["A" := item "" (StringValue "x") false]})))
               (ValueString (TeamID (resourceOf {["A" := item "" (StringValue "x") false]})))).2
          = false) as Hfound by reflexivity.
  assert (privatePrefix (resourceOf {["A" := item "" (StringValue "y") false;
                                      "B" := item "" (StringValue "z") false]})
          = privatePrefix (resourceOf {["A" := item "" (StringValue "x") false]}))
    as Hprefix by reflexivity.
  assert (environment (resourceOf {["A" := item "" (StringValue "y") false;
                                    "B" := item "" (StringValue "z") false]}) !! "A"
          = Some (item "" (StringValue "y") false)) as HA by (vm_compute; reflexivity).
  assert (environment (resourceOf {["A" := item "" (StringValue "y") false;
                                    "B" := item "" (StringValue "z") false]}) !! "B"
          = Some (item "" (StringValue "z") false)) as HB by (vm_compute; reflexivity).
  split; [exact Hfound|]. split; [exact Hprefix|]. split; [exact HA|]. split; [exact HB|].
  split.
  - destruct (changed_value_flagged (remoteOf [])
                (resourceOf {["A" := item "" (StringValue "x") false]})
                (resourceOf {["A" := item "" (StringValue "y") false;
                              "B" := item "" (StringValue "z") false]})
                ∅ "A" (item "" (StringValue "y") false) Hfound Hprefix HA) as [Hboth _].
    apply (Hboth (item "" (StringValue "x") false)). vm_compute. reflexivity.
  - destruct (changed_value_flagged (remoteOf [])
                (resourceOf {["A" := item "" (StringValue "x") false]})
                (resourceOf {["A" := item "" (StringValue "y") false;
                              "B" := item "" (StringValue "z") false]})
                ∅ "B" (item "" (StringValue "z") false) Hfound Hprefix HB) as [_ Hnew].
    apply Hnew; vm_compute; reflexivity.
Defined.

(** X16 (witness).  [A] is recorded with ID [r1]; outside, it was deleted
    and created again under ID [r2]. *)
Lemma Read_origin_witness :
  let state := resourceOf {["A" := item "r1" StringNull false]} in
  let recreated := liveEntry "A" "r2" "x" "encrypted" in
  let w := remoteOf [recreated] in
  let s := convertResponseToProjectEnvironmentVariables [recreated] state ∅ in
  let v := responseItem (environment state) recreated in
  let got :=
    client.GetEnvironmentVariables w (ValueString (ProjectID state))
      (ValueString (TeamID state)) in
  State (Read w state ∅) = StateSet s
  /\ environment s !! "A" = Some v
  /\ exists e,
      e ∈ got.2.1 /\ client.Key e = "A" /\ v = responseItem (environment state) e
      /\ ((client.ID e <> ""
           /\ exists k' p, environment state !! k' = Some p
                           /\ ValueString (ID p) = client.ID e)
          \/ exists p, environment state !! "A" = Some p
                       /\ sameVariable ("A", p) e = true).
Proof.
  cbn zeta.
  assert (State (Read (remoteOf [liveEntry "A" "r2" "x" "encrypted"])
                   (resourceOf {["A" := item "r1" StringNull false]}) ∅)
          = StateSet (convertResponseToProjectEnvironmentVariables
                        [liveEntry "A" "r2" "x" "encrypted"]
                        (resourceOf {["A" := item "r1" StringNull false]}) ∅)) as Hstate
    by (vm_compute; reflexivity).
  assert (environment
            (convertResponseToProjectEnvironmentVariables
               [liveEntry "A" "r2" "x" "encrypted"]
               (resourceOf {["A" := item "r1" StringNull false]}) ∅) !! "A"
          = Some (responseItem
                    (environment (resourceOf {["A" := item "r1" StringNull false]}))
                    (liveEntry "A" "r2" "x" "encrypted"))) as Hk
    by (vm_compute; reflexivity).
  split; [exact Hstate|]. split; [exact Hk|].
  exact (Read_origin (remoteOf [liveEntry "A" "r2" "x" "encrypted"])
           (resourceOf {["A" := item "r1" StringNull false]}) ∅ _ "A" _ Hstate Hk).
Defined.

(** X17 (witness).  The same case: the entry created again is read back. *)
Lemma Read_keeps_witness :
  let state := resourceOf {["A" := item "r1" StringNull false]} in
  let recreated := liveEntry "A" "r2" "x" "encrypted" in
  let w := remoteOf [recreated] in
  let got :=
    client.GetEnvironmentVariables w (ValueString (ProjectID state))
      (ValueString (TeamID state)) in
  existingIDsOf (environment state) <> ∅
  /\ got.2.2 = None
  /\ NoDup (client.ID <$> got.2.1)
  /\ recreated ∈ got.2.1
  /\ correlates (environment state) recreated = true
  /\ exists s, State (Read w state ∅) = StateSet s
               /\ is_Some (environment s !! client.Key recreated).
Proof.
  cbn zeta.
  set (state := resourceOf {["A" := item "r1" StringNull false]}).
  set (recreated := liveEntry "A" "r2" "x" "encrypted").
  assert (existingIDsOf (environment state) <> ∅) as Hids.
  { intros E. apply (f_equal elements) in E. vm_compute in E. discriminate. }
  assert ((client.GetEnvironmentVariables (remoteOf [recreated])
             (ValueString (ProjectID state)) (ValueString (TeamID state))).2.2 = None)
    as Herr by reflexivity.
  assert (NoDup (client.ID <$>
                   (client.GetEnvironmentVariables (remoteOf [recreated])
                      (ValueString (ProjectID state)) (ValueString (TeamID state))).2.1))
    as Hnd.
  { apply NoDup_singleton. }
  assert (recreated ∈ (client.GetEnvironmentVariables (remoteOf [recreated])
                         (ValueString (ProjectID state)) (ValueString (TeamID state))).2.1)
    as Hin by apply list_elem_of_here.
  assert (correlates (environment state) recreated = true) as Hcor
    by (vm_compute; reflexivity).
  split; [exact Hids|]. split; [exact Herr|]. split; [exact Hnd|].
  split; [exact Hin|]. split; [exact Hcor|].
  exact (Read_keeps (remoteOf [recreated]) state ∅ recreated Hids Herr Hnd Hin
           (or_intror Hcor)).
Defined.
